(** * JobInsight+: text extraction, LLM response handling and analysis history

    Shallow embedding of the client code of JobInsight+:
    - [src/lib/supabase.ts]: [callGeminiAPI], [getSalaryTrendsFromGemini],
      [getLearningRecommendationsFromGemini], [analyzeResumeJobMatch];
    - [components/ResumeUpload.tsx]: [handleFileChange];
    - [components/JobDescriptionInput.tsx]: the text windowing of
      [handleExtractFromUrl], and the one-shot save effect of [AnalysisResults];
    - the Dashboard page: [saveToHistory], [handleAnalyze], [handleViewHistory],
      the effect that loads the history of the signed-in [user], sign-in and
      sign-out.

    The Dashboard and [AnalysisResults] are a state machine over events (user
    actions, query settlements, auth changes).  Each event is followed by a
    render and a commit: a render that throws crashes the app before any
    effect runs; otherwise the effects run, child before parent, and their
    state changes cause further renders.  The render model lists where the
    rendered code can throw on a decoded value (property reads on [null],
    [.map], [.slice], [.toLowerCase], [ToPrimitive], objects as React
    children).  Library components are boundaries: the Recharts charts and
    the Radix [Progress] receive their props without being modelled inside,
    and Radix [TabsContent] renders only the active tab's children.

    JavaScript strings are modelled as [string]: one [ascii] stands for one
    UTF-16 code unit (code units above 255 are not represented).  A JSON
    value is the inductive [json]; numbers keep their source lexeme. *)

From Stdlib Require Import String Ascii List Bool Arith NArith Lia.
Import ListNotations.
Open Scope string_scope.
#[local] Set Warnings "-register-all,-abstract-large-number".

(** ** JavaScript string primitives *)
Module Js.

(** Members of the [\s] class representable in the byte model:
    TAB, LF, VT, FF, CR, SPACE and NO-BREAK SPACE (U+00A0). *)
Definition is_space (c : ascii) : bool :=
  let n := nat_of_ascii c in
  (Nat.eqb n 9) || (Nat.eqb n 10) || (Nat.eqb n 11) || (Nat.eqb n 12) || (Nat.eqb n 13)
  || (Nat.eqb n 32) || (Nat.eqb n 160).

(** [s.replace(/\s+/g, ' ')]; [in_ws] says the previous code unit was
    already part of a replaced run. *)
Fixpoint collapse_aux (in_ws : bool) (s : string) : string :=
  match s with
  | EmptyString => EmptyString
  | String c r =>
      if is_space c then
        if in_ws then collapse_aux true r else String " " (collapse_aux true r)
      else String c (collapse_aux false r)
  end.

Definition collapse_ws (s : string) : string := collapse_aux false s.

Fixpoint trim_start (s : string) : string :=
  match s with
  | EmptyString => EmptyString
  | String c r => if is_space c then trim_start r else s
  end.

Fixpoint trim_end (s : string) : string :=
  match s with
  | EmptyString => EmptyString
  | String c r =>
      let r' := trim_end r in
      match r' with
      | EmptyString => if is_space c then EmptyString else String c EmptyString
      | _ => String c r'
      end
  end.

(** [s.trim()] *)
Definition trim (s : string) : string := trim_end (trim_start s).

(** [s.includes(sub)] *)
Fixpoint includes (s sub : string) : bool :=
  prefix sub s ||
  match s with
  | EmptyString => false
  | String _ r => includes r sub
  end.

(** Lower-casing used by the [/i] flag (ASCII letters; the keywords searched
    for are ASCII, and [/i] without [u] never folds a non-ASCII unit onto an
    ASCII one). *)
Definition lower (c : ascii) : ascii :=
  let n := nat_of_ascii c in
  if (Nat.leb 65 n) && (Nat.leb n 90) then ascii_of_nat (n + 32) else c.

Fixpoint map_units (f : ascii -> ascii) (s : string) : string :=
  match s with
  | EmptyString => EmptyString
  | String c r => String (f c) (map_units f r)
  end.

(** [s.split(sep)] for a one-unit separator. *)
Fixpoint split_on (sep : ascii) (s : string) : list string :=
  match s with
  | EmptyString => [EmptyString]
  | String c r =>
      let rest := split_on sep r in
      if Ascii.eqb c sep then EmptyString :: rest
      else match rest with
           | w :: ws => String c w :: ws
           | [] => [String c EmptyString]
           end
  end.

(** A run of [n] copies of [c]. *)
Fixpoint repeat_unit (n : nat) (c : ascii) : string :=
  match n with
  | O => EmptyString
  | S k => String c (repeat_unit k c)
  end.

Fixpoint nat_digits (fuel n : nat) (acc : string) : string :=
  match fuel with
  | O => acc
  | S f =>
      let acc' := String (ascii_of_nat (48 + n mod 10)) acc in
      if Nat.ltb n 10 then acc' else nat_digits f (n / 10) acc'
  end.

(** Decimal rendering of a natural number ([String(n)]). *)
Definition string_of_nat (n : nat) : string := nat_digits (S n) n EmptyString.

Fixpoint N_digits (fuel : nat) (n : N) (acc : string) : string :=
  match fuel with
  | O => acc
  | S f =>
      let acc' := String (ascii_of_N (48 + n mod 10)) acc in
      if N.ltb n 10 then acc' else N_digits f (n / 10) acc'
  end.

(** [String(n)] for a binary natural number (a [Date.now()] value). *)
Definition string_of_N (n : N) : string :=
  N_digits (S (N.to_nat (N.log2 n))) n EmptyString.

Definition is_digit (c : ascii) : bool :=
  let n := nat_of_ascii c in (Nat.leb 48 n) && (Nat.leb n 57).

Fixpoint digits_value (s : string) (acc : nat) : option nat :=
  match s with
  | EmptyString => Some acc
  | String c r =>
      if is_digit c then digits_value r (acc * 10 + (nat_of_ascii c - 48))
      else None
  end.

(** A property key that is a canonical array index ("0", "1", ..., no
    leading zero). *)
Definition array_index (k : string) : option nat :=
  match k with
  | EmptyString => None
  | String "0" EmptyString => Some 0
  | String "0" _ => None
  | _ => digits_value k 0
  end.

End Js.

(** ** JSON values and [JSON.parse] *)
Module Json.

Inductive json : Type :=
| JNull
| JBool (b : bool)
| JNum (lexeme : string)
| JStr (s : string)
| JArr (xs : list json)
| JObj (fields : list (string * json)).

(** Defining property [k] on an object: an existing key keeps its position
    and takes the new value, a new key is appended (as [CreateDataProperty]
    does, hence also [JSON.parse] on duplicate keys). *)
Fixpoint obj_put (fs : list (string * json)) (k : string) (v : json)
  : list (string * json) :=
  match fs with
  | [] => [(k, v)]
  | (k', v') :: rest =>
      if String.eqb k k' then (k', v) :: rest else (k', v') :: obj_put rest k v
  end.

Fixpoint obj_lookup (fs : list (string * json)) (k : string) : option json :=
  match fs with
  | [] => None
  | (k', v) :: rest => if String.eqb k k' then Some v else obj_lookup rest k
  end.

Definition is_json_ws (c : ascii) : bool :=
  let n := nat_of_ascii c in (Nat.eqb n 32) || (Nat.eqb n 9) || (Nat.eqb n 10) || (Nat.eqb n 13).

Fixpoint skip_ws (s : string) : string :=
  match s with
  | EmptyString => EmptyString
  | String c r => if is_json_ws c then skip_ws r else s
  end.

Definition hex_value (c : ascii) : option nat :=
  let n := nat_of_ascii c in
  if (Nat.leb 48 n) && (Nat.leb n 57) then Some (n - 48)
  else if (Nat.leb 65 n) && (Nat.leb n 70) then Some (n - 55)
  else if (Nat.leb 97 n) && (Nat.leb n 102) then Some (n - 87)
  else None.

(** A [\uXXXX] escape: units above 255 are outside the byte model and are
    rendered as ["?"]. *)
Definition unicode_escape (a b c d : ascii) : option ascii :=
  match hex_value a, hex_value b, hex_value c, hex_value d with
  | Some x, Some y, Some z, Some w =>
      let v := ((x * 16 + y) * 16 + z) * 16 + w in
      Some (if Nat.ltb v 256 then ascii_of_nat v else "?"%char)
  | _, _, _, _ => None
  end.

(** Body of a string literal after the opening quote: its value and the rest
    of the input after the closing quote. *)
Fixpoint string_body (s : string) : option (string * string) :=
  match s with
  | EmptyString => None
  | String "034" r => Some (EmptyString, r)
  | String "\" (String e r) =>
      let k := fun (c : ascii) =>
                 match string_body r with
                 | Some (v, r') => Some (String c v, r')
                 | None => None
                 end in
      match e with
      | "034"%char => k "034"%char
      | "\"%char => k "\"%char
      | "/"%char => k "/"%char
      | "b"%char => k (ascii_of_nat 8)
      | "f"%char => k (ascii_of_nat 12)
      | "n"%char => k (ascii_of_nat 10)
      | "r"%char => k (ascii_of_nat 13)
      | "t"%char => k (ascii_of_nat 9)
      | "u"%char =>
          match r with
          | String a (String b (String c (String d r'))) =>
              match unicode_escape a b c d, string_body r' with
              | Some u, Some (v, r'') => Some (String u v, r'')
              | _, _ => None
              end
          | _ => None
          end
      | _ => None
      end
  | String c r =>
      if Nat.ltb (nat_of_ascii c) 32 then None
      else match string_body r with
           | Some (v, r') => Some (String c v, r')
           | None => None
           end
  end.

Fixpoint take_digits (s : string) : string * string :=
  match s with
  | String c r =>
      if Js.is_digit c then let (d, r') := take_digits r in (String c d, r')
      else (EmptyString, s)
  | EmptyString => (EmptyString, EmptyString)
  end.

(** Number literal: optional minus, integer part without leading zero,
    optional fraction and optional exponent, as in the JSON grammar. *)
Definition number_lexeme (s : string) : option (string * string) :=
  let '(sign, s1) := match s with
                     | String "-" r => ("-", r)
                     | _ => (EmptyString, s)
                     end in
  let int_part :=
    match s1 with
    | String "0" r => Some ("0", r)
    | String c r =>
        if Js.is_digit c then let (d, r') := take_digits r in Some (String c d, r')
        else None
    | EmptyString => None
    end in
  match int_part with
  | None => None
  | Some (ip, r1) =>
      let frac :=
        match r1 with
        | String "." r2 =>
            let (d, r3) := take_digits r2 in
            match d with EmptyString => None | _ => Some ("." ++ d, r3) end
        | _ => Some (EmptyString, r1)
        end in
      match frac with
      | None => None
      | Some (fp, r3) =>
          let exp_body (e : ascii) (r4 : string) :=
            let '(es, r5) := match r4 with
                             | String "+" r => ("+", r)
                             | String "-" r => ("-", r)
                             | _ => (EmptyString, r4)
                             end in
            let (d, r6) := take_digits r5 in
            match d with
            | EmptyString => None
            | _ => Some (String e (es ++ d), r6)
            end in
          let ex :=
            match r3 with
            | String "e" r4 => exp_body "e"%char r4
            | String "E" r4 => exp_body "E"%char r4
            | _ => Some (EmptyString, r3)
            end in
          match ex with
          | None => None
          | Some (xp, r7) => Some (sign ++ ip ++ fp ++ xp, r7)
          end
      end
  end.

Fixpoint parse_value (fuel : nat) (s : string) {struct fuel} : option (json * string) :=
  match fuel with
  | O => None
  | S f =>
      match skip_ws s with
      | String "n" (String "u" (String "l" (String "l" r))) => Some (JNull, r)
      | String "t" (String "r" (String "u" (String "e" r))) => Some (JBool true, r)
      | String "f" (String "a" (String "l" (String "s" (String "e" r)))) =>
          Some (JBool false, r)
      | String "034" r =>
          match string_body r with
          | Some (v, r') => Some (JStr v, r')
          | None => None
          end
      | String "[" r =>
          match skip_ws r with
          | String "]" r' => Some (JArr [], r')
          | r' => parse_elems f r' []
          end
      | String "{" r =>
          match skip_ws r with
          | String "}" r' => Some (JObj [], r')
          | r' => parse_members f r' []
          end
      | s' =>
          match number_lexeme s' with
          | Some (lx, r) => Some (JNum lx, r)
          | None => None
          end
      end
  end
with parse_elems (fuel : nat) (s : string) (acc : list json) {struct fuel}
  : option (json * string) :=
  match fuel with
  | O => None
  | S f =>
      match parse_value f s with
      | None => None
      | Some (v, r) =>
          match skip_ws r with
          | String "," r' => parse_elems f r' (v :: acc)
          | String "]" r' => Some (JArr (rev (v :: acc)), r')
          | _ => None
          end
      end
  end
with parse_members (fuel : nat) (s : string) (acc : list (string * json)) {struct fuel}
  : option (json * string) :=
  match fuel with
  | O => None
  | S f =>
      match skip_ws s with
      | String "034" r =>
          match string_body r with
          | None => None
          | Some (k, r1) =>
              match skip_ws r1 with
              | String ":" r2 =>
                  match parse_value f r2 with
                  | None => None
                  | Some (v, r3) =>
                      match skip_ws r3 with
                      | String "," r4 => parse_members f r4 (obj_put acc k v)
                      | String "}" r4 => Some (JObj (obj_put acc k v), r4)
                      | _ => None
                      end
                  end
              | _ => None
              end
          end
      | _ => None
      end
  end.

(** [JSON.parse(s)]: [None] when it throws a [SyntaxError].  Every value or
    list step consumes at least one unit, so [2 * length s + 2] is enough
    fuel. *)
Definition parse (s : string) : option json :=
  match parse_value (2 * String.length s + 2) s with
  | Some (v, r) => match skip_ws r with EmptyString => Some v | _ => None end
  | None => None
  end.

End Json.

(** ** JavaScript operations on decoded JSON values *)
Module JsValue.
Import Json.

(** [v[k]] on a non-nullish value; [None] is [undefined]. *)
Definition get (v : json) (k : string) : option json :=
  match v with
  | JObj fs => obj_lookup fs k
  | JArr xs =>
      if String.eqb k "length" then Some (JNum (Js.string_of_nat (List.length xs)))
      else match Js.array_index k with
           | Some n => nth_error xs n
           | None => None
           end
  | JStr s =>
      if String.eqb k "length" then Some (JNum (Js.string_of_nat (String.length s)))
      else match Js.array_index k with
           | Some n => match String.get n s with
                       | Some c => Some (JStr (String c EmptyString))
                       | None => None
                       end
           | None => None
           end
  | _ => None
  end.

(** [v?.[k]]: [undefined] on [null] and [undefined]. *)
Definition get_opt (v : option json) (k : string) : option json :=
  match v with
  | None | Some JNull => None
  | Some w => get w k
  end.

(** A number lexeme denotes zero when its mantissa has no non-zero digit. *)
Fixpoint mantissa_is_zero (s : string) : bool :=
  match s with
  | EmptyString => true
  | String c r =>
      if Ascii.eqb c "e" || Ascii.eqb c "E" then true
      else if Js.is_digit c && negb (Ascii.eqb c "0") then false
      else mantissa_is_zero r
  end.

(** JavaScript truthiness; [None] is [undefined]. *)
Definition truthy (v : option json) : bool :=
  match v with
  | None | Some JNull => false
  | Some (JBool b) => b
  | Some (JNum lx) => negb (mantissa_is_zero lx)
  | Some (JStr s) => negb (String.eqb s EmptyString)
  | Some (JArr _) | Some (JObj _) => true
  end.

(** [String(v)], the message of [new Error(v)]. *)
Fixpoint to_js_string (v : json) : string :=
  match v with
  | JNull => "null"
  | JBool b => if b then "true" else "false"
  | JNum lx => lx
  | JStr s => s
  | JArr xs =>
      String.concat "," (map (fun x => match x with
                                       | JNull => EmptyString
                                       | _ => to_js_string x
                                       end) xs)
  | JObj _ => "[object Object]"
  end.

(** Own enumerable properties copied by an object spread [{...v}]. *)
Fixpoint index_keys (i : nat) (s : string) : list (string * json) :=
  match s with
  | EmptyString => []
  | String c r => (Js.string_of_nat i, JStr (String c EmptyString)) :: index_keys (S i) r
  end.

Definition spread (v : json) : list (string * json) :=
  match v with
  | JObj fs => fs
  | JArr xs => combine (map Js.string_of_nat (seq 0 (List.length xs))) xs
  | JStr s => index_keys 0 s
  | _ => []
  end.

End JsValue.

(** ** Exceptions and promises *)
Inductive throws (A : Type) : Type :=
| Returns (a : A)
| Throws (message : string).
Arguments Returns {A} a.
Arguments Throws {A} message.

Definition bind {A B} (m : throws A) (k : A -> throws B) : throws B :=
  match m with
  | Returns a => k a
  | Throws e => Throws e
  end.

Notation "x <- m ;; k" := (bind m (fun x => k)) (at level 61, m at next level, right associativity).

(** Settled state of a promise returned by an [async] function. *)
Inductive promise : Type :=
| Resolved (v : Json.json)
| Rejected (message : string).

(** ** The Gemini API layer ([src/lib/supabase.ts]) *)
Module Gemini.
Import Json.

(** What the single request of [callGeminiAPI] runs into.  A body that
    [response.json()] fails to decode is [inl] of the rejection message. *)
Inductive reply : Type :=
| NoApiKey                                   (* [GEMINI_API_KEY] unset *)
| FetchRejected (message : string)           (* [fetch] rejects *)
| HttpError (status : nat) (statusText : string) (body : string + json)
| HttpOk (body : string + json).

(** Lines 120-133: the envelope checks on the decoded body [data]. *)
Definition envelope (data : json) : throws json :=
  match data with
  | JNull => Throws "Cannot read properties of null (reading 'error')"
  | _ =>
      let err := JsValue.get data "error" in
      if JsValue.truthy err then
        let m := JsValue.get_opt err "message" in
        Throws (if JsValue.truthy m then
                  match m with Some mv => JsValue.to_js_string mv | None => EmptyString end
                else "Failed to get response from Gemini")
      else
        let cands := JsValue.get data "candidates" in
        let text :=
          JsValue.get_opt
            (JsValue.get_opt
               (JsValue.get_opt
                  (JsValue.get_opt (JsValue.get_opt cands "0") "content") "parts") "0")
            "text" in
        if negb (JsValue.truthy cands) || negb (JsValue.truthy text) then
          Throws "Invalid response format from Gemini API"
        else match text with
             | Some t => Returns t
             | None => Throws "Invalid response format from Gemini API"
             end
  end.

(** [callGeminiAPI]: the reply text, or the error it throws (its own
    [catch] rethrows unchanged). *)
Definition callGeminiAPI (r : reply) : throws json :=
  match r with
  | NoApiKey => Throws "Gemini API key is not configured"
  | FetchRejected m => Throws m
  | HttpError status statusText body =>
      match body with
      | inl m => Throws m
      | inr _ => Throws ("API error: " ++ Js.string_of_nat status ++ " " ++ statusText)
      end
  | HttpOk (inl m) => Throws m
  | HttpOk (inr data) => envelope data
  end.

Fixpoint first_index (c : ascii) (s : string) : option nat :=
  match s with
  | EmptyString => None
  | String d r =>
      if Ascii.eqb c d then Some 0
      else match first_index c r with Some n => Some (S n) | None => None end
  end.

Fixpoint last_index (c : ascii) (s : string) : option nat :=
  match s with
  | EmptyString => None
  | String d r =>
      match last_index c r with
      | Some n => Some (S n)
      | None => if Ascii.eqb c d then Some 0 else None
      end
  end.

(** [const m = s.match(/OPEN[\s\S]*CLOSE/); m ? m[0] : s]: the greedy match
    runs from the first [op] to the last [cl] after it. *)
Definition extract_json_text (op cl : ascii) (s : string) : string :=
  match first_index op s, last_index cl s with
  | Some i, Some j => if Nat.ltb i j then substring i (j - i + 1) s else s
  | _, _ => s
  end.

(** [v.slice(0, 3)] on a decoded value. *)
Definition slice3 (v : json) : throws json :=
  match v with
  | JArr xs => Returns (JArr (firstn 3 xs))
  | JStr s => Returns (JStr (substring 0 3 s))
  | JNull => Throws "Cannot read properties of null (reading 'slice')"
  | _ => Throws "slice is not a function"
  end.

Definition salary (role salaryInINR growth : string) : json :=
  JObj [("role", JStr role); ("salaryInINR", JStr salaryInINR); ("growth", JStr growth)].

(** Lines 185-201. *)
Definition salary_fallback : json :=
  JArr [ salary "Full Stack Developer" "₹8,00,000 - ₹15,00,000" "↗ 18%";
         salary "DevOps Engineer" "₹12,00,000 - ₹22,00,000" "↗ 25%";
         salary "Data Scientist" "₹10,00,000 - ₹20,00,000" "↗ 20%" ].

Definition recommendation (title type_ provider duration priority url : string) : json :=
  JObj [("title", JStr title); ("type", JStr type_); ("provider", JStr provider);
        ("duration", JStr duration); ("priority", JStr priority); ("url", JStr url)].

(** Lines 248-273. *)
Definition learning_fallback : json :=
  JArr [ recommendation "AWS Solutions Architect Associate" "Certification" "AWS"
           "3-4 weeks" "High"
           "https://aws.amazon.com/certification/certified-solutions-architect-associate/";
         recommendation "Full Stack Web Development" "Course" "Coursera" "6 months" "High"
           "https://www.coursera.org/specializations/full-stack-react";
         recommendation "Python for Data Science" "Course" "edX" "8 weeks" "Medium"
           "https://www.edx.org/course/python-for-data-science" ].

Definition strs (l : list string) : json := JArr (map JStr l).

Definition gap (skill current required : string) : json :=
  JObj [("skill", JStr skill); ("current", JNum current); ("required", JNum required)].

Definition demand (skill level trend : string) : json :=
  JObj [("skill", JStr skill); ("demandLevel", JStr level); ("growthTrend", JStr trend)].

Definition fit (trait score requirement : string) : json :=
  JObj [("trait", JStr trait); ("matchScore", JNum score); ("jobRequirement", JStr requirement)].

Definition career (role timeframe potentialSalary : string) (skills : list string) : json :=
  JObj [("role", JStr role); ("timeframe", JStr timeframe);
        ("potentialSalary", JStr potentialSalary); ("requiredSkills", strs skills)].

(** Lines 419-509: the fallback [ComprehensiveAnalysis]. *)
Definition analysis_fallback : json :=
  JObj [
    ("skillMatch", JObj [
       ("matched", strs ["Problem-solving abilities"; "Basic programming knowledge";
                         "Communication skills"; "Team collaboration"; "Technical aptitude"]);
       ("missing", strs ["Advanced JavaScript frameworks"; "Cloud computing experience";
                         "System design knowledge"; "DevOps practices"; "Database optimization"]);
       ("overallMatchPercentage", JNum "65")]);
    ("skillGapData", JArr [
       gap "JavaScript/React" "60" "85"; gap "Node.js/Backend" "45" "80";
       gap "AWS/Cloud" "25" "75"; gap "Database Management" "55" "70";
       gap "DevOps/CI-CD" "20" "65"; gap "System Design" "30" "75";
       gap "API Development" "50" "80"]);
    ("recommendations", JArr [
       recommendation "React.js Complete Guide" "Course" "Udemy" "40 hours" "High"
         "https://www.udemy.com/course/react-the-complete-guide-incl-redux/";
       recommendation "AWS Certified Developer" "Certification" "AWS" "8 weeks" "High"
         "https://aws.amazon.com/certification/certified-developer-associate/";
       recommendation "System Design Interview" "Course" "Educative" "6 weeks" "Medium"
         "https://www.educative.io/courses/grokking-the-system-design-interview"]);
    ("industryDemand", JArr [
       demand "React.js" "Very High" "Rapidly Growing"; demand "Node.js" "High" "Growing";
       demand "AWS" "Very High" "Rapidly Growing"; demand "Python" "High" "Growing";
       demand "DevOps" "Very High" "Rapidly Growing"]);
    ("personalityFit", JArr [
       fit "Technical Communication" "70" "Clear technical documentation and code reviews";
       fit "Team Collaboration" "75" "Agile development and cross-functional teamwork";
       fit "Continuous Learning" "80"
         "Staying updated with latest technologies and best practices"]);
    ("careerPathSuggestions", JArr [
       career "Senior Full Stack Developer" "2-3 years" "₹12,00,000 - ₹20,00,000"
         ["Advanced React"; "System Architecture"; "Team Leadership"; "Performance Optimization"];
       career "Technical Lead" "4-5 years" "₹20,00,000 - ₹35,00,000"
         ["System Design"; "Team Management"; "Product Strategy"; "Mentoring"]]);
    ("strengths", strs [
       "Solid foundation in core programming concepts and problem-solving";
       "Good communication skills suitable for Indian corporate environment";
       "Adaptability and willingness to learn new technologies"]);
    ("weaknesses", strs [
       "Limited experience with modern JavaScript frameworks and cloud technologies";
       "Needs improvement in system design and scalability concepts"]);
    ("competitiveAdvantage", JStr
       "Strong fundamentals with good learning potential for the rapidly growing Indian tech market");
    ("matchScoreReasoning", JStr
       "Provide a brief and precise explanation (1-2 sentences) for the overall match percentage, focusing on the most significant matching strengths and missing skills.")].

Definition resume_too_short : string :=
  "Resume text is too short for accurate analysis. Please provide a more detailed resume.".

Definition job_too_short : string :=
  "Job description is too short for accurate analysis. Please provide a more detailed job description.".

Section Calls.
(** [JSON.parse]: the decoded value, or [None] when it throws. *)
Variable JSON_parse : string -> option json.
(** [x > 0] for a defined JSON value [x] read as the [length] property of a
    decoded object (a relational comparison after [ToNumber]). *)
Variable greater_than_zero : json -> bool.

(** Lines 172-182 and 235-245: the inner [try] of the two array calls; any
    error in it becomes the "Failed to parse" error. *)
Definition parse_array_reply (failure : string) (responseText : json) : throws json :=
  match responseText with
  | JStr s =>
      match JSON_parse (extract_json_text "[" "]" s) with
      | Some v =>
          match slice3 v with
          | Returns w => Returns w
          | Throws _ => Throws failure
          end
      | None => Throws failure
      end
  | _ => Throws failure   (* [responseText.match] is not a function *)
  end.

(** [getSalaryTrendsFromGemini]: its promise always resolves. *)
Definition getSalaryTrendsFromGemini (r : reply) : json :=
  match (t <- callGeminiAPI r ;; parse_array_reply "Failed to parse salary trends data" t) with
  | Returns v => v
  | Throws _ => salary_fallback
  end.

(** [getLearningRecommendationsFromGemini]: its promise always resolves. *)
Definition getLearningRecommendationsFromGemini (r : reply) : json :=
  match (t <- callGeminiAPI r ;;
         parse_array_reply "Failed to parse learning recommendations data" t) with
  | Returns v => v
  | Throws _ => learning_fallback
  end.

(** [{...item, skill: item.skill || "Unknown Skill"}] *)
Definition fix_gap_item (item : json) : throws json :=
  match item with
  | JNull => Throws "Cannot read properties of null (reading 'skill')"
  | _ =>
      let sk := JsValue.get item "skill" in
      let v := match sk with
               | Some s => if JsValue.truthy sk then s else JStr "Unknown Skill"
               | None => JStr "Unknown Skill"
               end in
      Returns (JObj (obj_put (JsValue.spread item) "skill" v))
  end.

Fixpoint map_throws (f : json -> throws json) (xs : list json) : throws (list json) :=
  match xs with
  | [] => Returns []
  | x :: rest => y <- f x ;; ys <- map_throws f rest ;; Returns (y :: ys)
  end.

(** [analysis.skillGapData.length > 0] for a truthy [skillGapData]. *)
Definition length_positive (g : json) : bool :=
  match g with
  | JArr xs => Nat.ltb 0 (List.length xs)
  | JStr s => Nat.ltb 0 (String.length s)
  | JObj _ =>
      match JsValue.get g "length" with
      | Some l => greater_than_zero l
      | None => false
      end
  | _ => false
  end.

(** Lines 395-405: the decoded analysis after the skill-name clean-up. *)
Definition fix_skill_gaps (analysis : json) : throws json :=
  match analysis with
  | JNull => Throws "Cannot read properties of null (reading 'skillGapData')"
  | JObj fs =>
      let g := obj_lookup fs "skillGapData" in
      match g with
      | Some gv =>
          if JsValue.truthy g && length_positive gv then
            match gv with
            | JArr items =>
                items' <- map_throws fix_gap_item items ;;
                Returns (JObj (obj_put fs "skillGapData" (JArr items')))
            | _ => Throws "analysis.skillGapData.map is not a function"
            end
          else Returns analysis
      | None => Returns analysis
      end
  | _ => Returns analysis  (* primitives and arrays have no [skillGapData] *)
  end.

(** Lines 390-409: the inner [try] of [analyzeResumeJobMatch]. *)
Definition parse_analysis (responseText : json) : throws json :=
  match responseText with
  | JStr s =>
      match JSON_parse (extract_json_text "{" "}" s) with
      | Some v =>
          match fix_skill_gaps v with
          | Returns a => Returns a
          | Throws _ => Throws "Failed to parse resume analysis data"
          end
      | None => Throws "Failed to parse resume analysis data"
      end
  | _ => Throws "Failed to parse resume analysis data"
  end.

(** Lines 281-409: the body of the outer [try]. *)
Definition analysis_body (resumeText jobDescription : string) (r : reply) : throws json :=
  if String.eqb resumeText EmptyString || Nat.ltb (String.length (Js.trim resumeText)) 50
  then Throws resume_too_short
  else if String.eqb jobDescription EmptyString
          || Nat.ltb (String.length (Js.trim jobDescription)) 50
  then Throws job_too_short
  else t <- callGeminiAPI r ;; parse_analysis t.

(** [analyzeResumeJobMatch]: lines 410-416 rethrow an error whose message
    includes "too short", every other error resolves to the fallback. *)
Definition analyzeResumeJobMatch (resumeText jobDescription : string) (r : reply) : promise :=
  match analysis_body resumeText jobDescription r with
  | Returns a => Resolved a
  | Throws m => if Js.includes m "too short" then Rejected m else Resolved analysis_fallback
  end.

End Calls.
End Gemini.

(** ** Resume upload ([components/ResumeUpload.tsx]) *)
Module Upload.

(** The selected [File]: [decoded] is the UTF-8 decoding of its bytes (what
    both [file.text()] and [TextDecoder('utf-8')] produce), [None] when
    reading the file fails. *)
Record file : Type := {
  name : string;
  type_ : string;
  size : N;
  decoded : option string
}.

(** What one call of [handleFileChange] ends in. *)
Inductive outcome : Type :=
| NoFileSelected                   (* line 19: early return *)
| UploadRejected (error : string)  (* [setError]; [onUpload] not called *)
| Uploaded (text : string)         (* [onUpload(true, text)] *)
| ProcessingFailed (error : string). (* outer [catch]; [onUpload] not called *)

Definition validTypes : list string :=
  [ "application/pdf"; "application/msword";
    "application/vnd.openxmlformats-officedocument.wordprocessingml.document";
    "text/plain" ].

Definition max_size : N := 5 * 1024 * 1024.

(** *** Heuristic 1: [content.match(/\(([^\)]+)\)/g)] *)

(** [open_] holds the units read since an unmatched ["("]. *)
Fixpoint paren_scan (open_ : option string) (s : string) : list string :=
  match s with
  | EmptyString => []
  | String c r =>
      match open_ with
      | None => if Ascii.eqb c "(" then paren_scan (Some EmptyString) r else paren_scan None r
      | Some acc =>
          if Ascii.eqb c ")" then
            match acc with
            | EmptyString => paren_scan None r     (* "()" does not match *)
            | _ => ("(" ++ acc ++ ")") :: paren_scan None r
            end
          else paren_scan (Some (acc ++ String c EmptyString)) r
      end
  end.

(** [.replace(/[\(\)]/g, ' ')] *)
Definition parens_to_space (c : ascii) : ascii :=
  if Ascii.eqb c "(" || Ascii.eqb c ")" then " "%char else c.

(** [.replace(/\\n|\\r/g, ' ')]: a backslash followed by [n] or [r]. *)
Fixpoint escaped_nr_to_space (s : string) : string :=
  match s with
  | EmptyString => EmptyString
  | String a r =>
      if Ascii.eqb a "\" then
        match r with
        | String c r' =>
            if Ascii.eqb c "n" || Ascii.eqb c "r" then String " " (escaped_nr_to_space r')
            else String a (escaped_nr_to_space r)
        | EmptyString => String a EmptyString
        end
      else String a (escaped_nr_to_space r)
  end.

Definition heuristic_parens (content : string) : option string :=
  match paren_scan None content with
  | [] => None
  | ms => Some (Js.collapse_ws
                  (escaped_nr_to_space (Js.map_units parens_to_space (String.concat " " ms))))
  end.

(** *** Heuristic 2: [content.match(/\/Text\s*\[(.*?)\]/g)] *)

Fixpoint take_spaces (s : string) : string * string :=
  match s with
  | String c r =>
      if Js.is_space c then let (w, r') := take_spaces r in (String c w, r') else (EmptyString, s)
  | EmptyString => (EmptyString, EmptyString)
  end.

(** [(.*?)\]]: units up to the first ["]"], none of them a line terminator. *)
Fixpoint lazy_to_bracket (s : string) : option (string * string) :=
  match s with
  | EmptyString => None
  | String c r =>
      if Ascii.eqb c "]" then Some (EmptyString, r)
      else if Nat.eqb (nat_of_ascii c) 10 || Nat.eqb (nat_of_ascii c) 13 then None
      else match lazy_to_bracket r with
           | Some (v, r') => Some (String c v, r')
           | None => None
           end
  end.

(** A match of [/\/Text\s*\[/] at the start of [s]: the spaces and the rest
    after the bracket. *)
Definition text_open_at (s : string) : option (string * string) :=
  if prefix "/Text" s then
    let (ws, s2) := take_spaces (substring 5 (String.length s - 5) s) in
    match s2 with
    | String "[" s3 => Some (ws, s3)
    | _ => None
    end
  else None.

Definition text_match_at (s : string) : option (string * string) :=
  match text_open_at s with
  | Some (ws, s3) =>
      match lazy_to_bracket s3 with
      | Some (inner, rest) => Some ("/Text" ++ ws ++ "[" ++ inner ++ "]", rest)
      | None => None
      end
  | None => None
  end.

Fixpoint text_scan (fuel : nat) (s : string) : list string :=
  match fuel with
  | O => []
  | S f =>
      match s with
      | EmptyString => []
      | String _ r =>
          match text_match_at s with
          | Some (m, rest) => m :: text_scan f rest
          | None => text_scan f r
          end
      end
  end.

(** [.replace(/\/Text\s*\[/g, '')] *)
Fixpoint remove_text_open (fuel : nat) (s : string) : string :=
  match fuel with
  | O => s
  | S f =>
      match s with
      | EmptyString => EmptyString
      | String c r =>
          match text_open_at s with
          | Some (_, rest) => remove_text_open f rest
          | None => String c (remove_text_open f r)
          end
      end
  end.

(** [.replace(/\]/g, '')] *)
Fixpoint remove_brackets (s : string) : string :=
  match s with
  | EmptyString => EmptyString
  | String c r => if Ascii.eqb c "]" then remove_brackets r else String c (remove_brackets r)
  end.

Definition heuristic_text_arrays (content : string) : option string :=
  match text_scan (S (String.length content)) content with
  | [] => None
  | ms =>
      let j := String.concat " " ms in
      Some (Js.map_units parens_to_space
              (remove_brackets (remove_text_open (S (String.length j)) j)))
  end.

(** *** Heuristic 3: printable-character filtering *)

(** [.replace(/[^\x20-\x7E]/g, ' ')] *)
Definition printable_or_space (c : ascii) : ascii :=
  let n := nat_of_ascii c in
  if Nat.leb 32 n && Nat.leb n 126 then c else " "%char.

Definition heuristic_printable (content : string) : string :=
  Js.trim (Js.collapse_ws
    (String.concat " "
       (filter (fun w => Nat.ltb 2 (String.length w))
          (Js.split_on " " (Js.map_units printable_or_space content))))).

(** Lines 42-87: the three heuristics, each tried while the text so far is
    shorter than 100 units. *)
Definition pdf_text (content : string) : string :=
  let text0 := EmptyString in
  let text1 := match heuristic_parens content with Some t => t | None => text0 end in
  let text2 := if Nat.ltb (String.length text1) 100 then
                 match heuristic_text_arrays content with Some t => t | None => text1 end
               else text1 in
  if Nat.ltb (String.length text2) 100 then heuristic_printable content else text2.

Definition pdf_failed_text (fileName : string) : string :=
  fileName ++ " - Resume includes experience in software development, programming skills, and education details.".

Definition word_text (fileName : string) : string :=
  fileName ++ " - Resume includes professional experience spanning multiple years in technology roles, with skills in programming languages, databases, and web frameworks. Education includes degree in computer science or related field.".

Definition floor_text (fileName : string) : string :=
  fileName ++ " - Resume includes professional background in technology with various technical skills and educational qualifications.".

(** Lines 100-103. *)
Definition ensure_minimum (fileName text : string) : string :=
  if Nat.ltb (String.length text) 50 then floor_text fileName else text.

(** Lines 42-98: the text before the floor of lines 100-103 for an accepted
    file; [None] when [file.text()] rejects (the outer [catch]). *)
Definition extracted_text (f : file) : option string :=
  if String.eqb f.(type_) "text/plain" then f.(decoded)
  else if String.eqb f.(type_) "application/pdf" then
    match f.(decoded) with
    | Some content => Some (pdf_text content)
    | None => Some (pdf_failed_text f.(name))
    end
  else Some (word_text f.(name)).

(** [handleFileChange] for the first selected file. *)
Definition handleFileChange (selected : option file) : outcome :=
  match selected with
  | None => NoFileSelected
  | Some f =>
      if negb (existsb (String.eqb f.(type_)) validTypes) then
        UploadRejected "Invalid file type. Please upload a PDF, DOC, DOCX, or TXT file."
      else if N.ltb max_size f.(size) then
        UploadRejected "File too large. Maximum size is 5MB."
      else
        match extracted_text f with
        | Some text => Uploaded (ensure_minimum f.(name) text)
        | None => ProcessingFailed "Error processing resume. Please try again."
        end
  end.

End Upload.

(** ** Job posting text ([components/JobDescriptionInput.tsx], lines 60-77)

    The DOM steps (parsing, removal of script and style nodes, choice of the
    main-content node) are not modelled: their [textContent] is the input. *)
Module JobPage.

Definition keyword_at (s : string) : bool :=
  let l := Js.map_units Js.lower s in
  prefix "job description" l || prefix "requirements" l || prefix "responsibilities" l.

(** [.match(/job description|requirements|responsibilities/i).index]: the
    leftmost position where one of the alternatives matches. *)
Fixpoint keyword_index (s : string) : option nat :=
  match s with
  | EmptyString => None
  | String _ r =>
      if keyword_at s then Some 0
      else match keyword_index r with Some n => Some (S n) | None => None end
  end.

(** Lines 68-74; the guard is [matches && matches.index]. *)
Definition window_text (extractedText : string) : string :=
  let truncate_long :=
    if Nat.ltb 5000 (String.length extractedText)
    then substring 0 5000 extractedText ++ "..."
    else extractedText in
  match keyword_index extractedText with
  | Some idx => if Nat.eqb idx 0 then truncate_long else substring idx 4000 extractedText
  | None => truncate_long
  end.

(** Lines 61-76: the text stored by [setJobText] for a fetched page whose
    main-content node has text content [textContent]. *)
Definition stored_job_text (textContent : string) : string :=
  window_text (Js.trim (Js.collapse_ws textContent)).

(** The windowing as the specification states it, for comparison. *)
Definition window_text_spec (extractedText : string) : string :=
  match keyword_index extractedText with
  | Some idx => substring idx 4000 extractedText
  | None =>
      if Nat.ltb 5000 (String.length extractedText)
      then substring 0 5000 extractedText ++ "..."
      else extractedText
  end.

End JobPage.

(** ** Analysis history: the Dashboard page and [AnalysisResults] *)
Module History.
Import Json.

(** [AnalysisHistoryItem] *)
Record item : Type := {
  id : string;
  date : string;
  matchPercentage : option json;
  jobTitle : option string;
  itemResume : option string;
  itemJob : option string
}.

Inductive tab : Type := TAnalyze | THistory | TTrends.

(** The selected tab of the [Tabs] inside [AnalysisResults] (uncontrolled,
    [defaultValue="overview"]). *)
Inductive inner_tab : Type := IOverview | ISkills | IPersonality.

(** A mounted [AnalysisResults]: its [hasSaved] ref, its props, the state of
    its [comprehensiveAnalysis] query, its [analysisError] state and the
    state of its inner [Tabs]. *)
Record results : Type := {
  hasSaved : bool;
  rResume : string;
  rJob : string;
  data : option json;
  loading : bool;
  queryError : option string;
  analysisError : option string;
  innerTab : inner_tab
}.

(** Dashboard state, the query caches, the clock, the auth user and
    [localStorage].  [store] maps an e-mail to the list held under
    [analysisHistory_<email>] ([JSON.stringify] then [JSON.parse] gives the
    items back).  [loadedFor] is the [user] of the last run of the load
    effect (its dependency list is [[user]]).  [crashed] records that a
    render threw.  [learning] and [salary] are the data of the
    [learningRecommendations] and [salaryTrends] queries ([None] until their
    first fetch settles; both query functions always resolve). *)
Record dash : Type := {
  user : option string;
  history : list item;
  store : list (string * list item);
  loadedFor : option string;
  hasBeenSaved : bool;
  showResults : bool;
  resumeText : string;
  jobDescription : string;
  resumeUploaded : bool;
  selected : option item;
  activeTab : tab;
  mounted : option results;
  cache : list (string * string * json);
  now : N;
  today : string;
  crashed : bool;
  learning : option json;
  salary : option json
}.

Definition mk_dash u h st lf hb sr rt jd ru sel t m c n td cr lq sq : dash :=
  {| user := u; history := h; store := st; loadedFor := lf; hasBeenSaved := hb;
     showResults := sr; resumeText := rt; jobDescription := jd; resumeUploaded := ru;
     selected := sel; activeTab := t; mounted := m; cache := c; now := n; today := td;
     crashed := cr; learning := lq; salary := sq |}.

Definition mk_results hs rr rj dt ld qe ae it : results :=
  {| hasSaved := hs; rResume := rr; rJob := rj; data := dt; loading := ld;
     queryError := qe; analysisError := ae; innerTab := it |}.

(** [analysisError] is truthy. *)
Definition error_shown (r : results) : bool :=
  match r.(analysisError) with Some m => negb (String.eqb m EmptyString) | None => false end.

(** The inner [Tabs] are rendered only in the main branch (not loading, no
    error); when another branch is rendered they unmount, and the next main
    branch mounts them again on "overview". *)
Definition tabs_mounted (r : results) : results :=
  if r.(loading) || error_shown r then
    mk_results r.(hasSaved) r.(rResume) r.(rJob) r.(data) r.(loading) r.(queryError)
      r.(analysisError) IOverview
  else r.

Definition set_mounted (m : option results) (d : dash) : dash :=
  mk_dash d.(user) d.(history) d.(store) d.(loadedFor) d.(hasBeenSaved) d.(showResults)
    d.(resumeText) d.(jobDescription) d.(resumeUploaded) d.(selected) d.(activeTab)
    (option_map tabs_mounted m) d.(cache) d.(now) d.(today) d.(crashed) d.(learning)
    d.(salary).

Definition set_crashed (d : dash) : dash :=
  mk_dash d.(user) d.(history) d.(store) d.(loadedFor) d.(hasBeenSaved) d.(showResults)
    d.(resumeText) d.(jobDescription) d.(resumeUploaded) d.(selected) d.(activeTab)
    d.(mounted) d.(cache) d.(now) d.(today) true d.(learning) d.(salary).

Fixpoint cache_lookup (c : list (string * string * json)) (r j : string) : option json :=
  match c with
  | [] => None
  | (r', j', v) :: rest =>
      if String.eqb r r' && String.eqb j j' then Some v else cache_lookup rest r j
  end.

(** [localStorage.getItem] and [localStorage.setItem] on the history keys. *)
Fixpoint store_get (st : list (string * list item)) (k : string) : option (list item) :=
  match st with
  | [] => None
  | (k', h) :: rest => if String.eqb k k' then Some h else store_get rest k
  end.

Fixpoint store_put (st : list (string * list item)) (k : string) (h : list item)
  : list (string * list item) :=
  match st with
  | [] => [(k, h)]
  | (k', h') :: rest => if String.eqb k k' then (k', h) :: rest else (k', h') :: store_put rest k h
  end.

(** [jobDescription.split('\n')[0] || "Untitled Position"] *)
Definition job_title (jd : string) : string :=
  match Js.split_on (ascii_of_nat 10) jd with
  | EmptyString :: _ | [] => "Untitled Position"
  | l :: _ => l
  end.

(** [saveToHistory(matchPercentage)] *)
Definition saveToHistory (pct : option json) (d : dash) : dash :=
  match d.(user) with
  | None => d
  | Some email =>
      if d.(hasBeenSaved) then d
      else
        let it := {| id := Js.string_of_N d.(now); date := d.(today);
                     matchPercentage := pct; jobTitle := Some (job_title d.(jobDescription));
                     itemResume := Some d.(resumeText); itemJob := Some d.(jobDescription) |} in
        mk_dash d.(user) (it :: d.(history)) (store_put d.(store) email (it :: d.(history)))
          d.(loadedFor) true d.(showResults) d.(resumeText) d.(jobDescription)
          d.(resumeUploaded) d.(selected) d.(activeTab) d.(mounted) d.(cache) d.(now)
          d.(today) d.(crashed) d.(learning) d.(salary)
  end.

Definition set_flags (hb sr : bool) (d : dash) : dash :=
  mk_dash d.(user) d.(history) d.(store) d.(loadedFor) hb sr d.(resumeText)
    d.(jobDescription) d.(resumeUploaded) d.(selected) d.(activeTab) d.(mounted) d.(cache)
    d.(now) d.(today) d.(crashed) d.(learning) d.(salary).

(** [handleAnalyze] *)
Definition handleAnalyze (d : dash) : dash :=
  match d.(user) with
  | None => d
  | Some _ =>
      if negb d.(resumeUploaded) || String.eqb d.(resumeText) EmptyString then d
      else if String.eqb d.(jobDescription) EmptyString then d
      else if Nat.ltb (String.length d.(resumeText)) 50 then d
      else if Nat.ltb (String.length d.(jobDescription)) 50 then d
      else set_flags false true d
  end.

Definition truthy_text (s : option string) : bool :=
  match s with Some t => negb (String.eqb t EmptyString) | None => false end.

(** [handleViewHistory(item)] *)
Definition handleViewHistory (it : item) (d : dash) : dash :=
  match it.(itemResume), it.(itemJob) with
  | Some r, Some j =>
      if truthy_text it.(itemResume) && truthy_text it.(itemJob) then
        mk_dash d.(user) d.(history) d.(store) d.(loadedFor) d.(hasBeenSaved) true r j true
          (Some it) d.(activeTab) d.(mounted) d.(cache) d.(now) d.(today) d.(crashed)
          d.(learning) d.(salary)
      else
        mk_dash d.(user) d.(history) d.(store) d.(loadedFor) d.(hasBeenSaved) d.(showResults)
          d.(resumeText) d.(jobDescription) d.(resumeUploaded) (Some it) d.(activeTab)
          d.(mounted) d.(cache) d.(now) d.(today) d.(crashed) d.(learning) d.(salary)
  | _, _ =>
      mk_dash d.(user) d.(history) d.(store) d.(loadedFor) d.(hasBeenSaved) d.(showResults)
        d.(resumeText) d.(jobDescription) d.(resumeUploaded) (Some it) d.(activeTab)
        d.(mounted) d.(cache) d.(now) d.(today) d.(crashed) d.(learning) d.(salary)
  end.

(** The [onBack] callback passed to [AnalysisResults]. *)
Definition onBack (d : dash) : dash :=
  match d.(selected) with
  | None =>
      mk_dash d.(user) d.(history) d.(store) d.(loadedFor) false false EmptyString EmptyString
        false None d.(activeTab) d.(mounted) d.(cache) d.(now) d.(today) d.(crashed)
        d.(learning) d.(salary)
  | Some _ =>
      mk_dash d.(user) d.(history) d.(store) d.(loadedFor) false false d.(resumeText)
        d.(jobDescription) d.(resumeUploaded) None d.(activeTab) d.(mounted) d.(cache)
        d.(now) d.(today) d.(crashed) d.(learning) d.(salary)
  end.

Definition set_tab (t : tab) (d : dash) : dash :=
  mk_dash d.(user) d.(history) d.(store) d.(loadedFor) d.(hasBeenSaved) d.(showResults)
    d.(resumeText) d.(jobDescription) d.(resumeUploaded) d.(selected) t d.(mounted) d.(cache)
    d.(now) d.(today) d.(crashed) d.(learning) d.(salary).

(** A trigger of the inner [Tabs]; they exist only while mounted. *)
Definition set_inner_tab (t : inner_tab) (d : dash) : dash :=
  match d.(mounted) with
  | Some r =>
      if r.(loading) || error_shown r then d
      else set_mounted (Some (mk_results r.(hasSaved) r.(rResume) r.(rJob) r.(data)
                                r.(loading) r.(queryError) r.(analysisError) t)) d
  | None => d
  end.

(** The auth context's [user] changes (sign-in, sign-out). *)
Definition set_user (u : option string) (d : dash) : dash :=
  mk_dash u d.(history) d.(store) d.(loadedFor) d.(hasBeenSaved) d.(showResults)
    d.(resumeText) d.(jobDescription) d.(resumeUploaded) d.(selected) d.(activeTab)
    d.(mounted) d.(cache) d.(now) d.(today) d.(crashed) d.(learning) d.(salary).

Definition set_learning (v : json) (d : dash) : dash :=
  mk_dash d.(user) d.(history) d.(store) d.(loadedFor) d.(hasBeenSaved) d.(showResults)
    d.(resumeText) d.(jobDescription) d.(resumeUploaded) d.(selected) d.(activeTab)
    d.(mounted) d.(cache) d.(now) d.(today) d.(crashed) (Some v) d.(salary).

Definition set_salary (v : json) (d : dash) : dash :=
  mk_dash d.(user) d.(history) d.(store) d.(loadedFor) d.(hasBeenSaved) d.(showResults)
    d.(resumeText) d.(jobDescription) d.(resumeUploaded) d.(selected) d.(activeTab)
    d.(mounted) d.(cache) d.(now) d.(today) d.(crashed) d.(learning) (Some v).

(** The [comprehensiveAnalysis] query of the mounted [AnalysisResults]
    settles (after its retries): the resolved analysis is cached under the
    query key. *)
Definition settle (p : promise) (d : dash) : dash :=
  match d.(mounted) with
  | None => d
  | Some r =>
      match p with
      | Resolved v =>
          mk_dash d.(user) d.(history) d.(store) d.(loadedFor) d.(hasBeenSaved)
            d.(showResults) d.(resumeText) d.(jobDescription) d.(resumeUploaded) d.(selected)
            d.(activeTab)
            (Some (tabs_mounted (mk_results r.(hasSaved) r.(rResume) r.(rJob) (Some v) false
                                   None r.(analysisError) r.(innerTab))))
            ((r.(rResume), r.(rJob), v) :: d.(cache)) d.(now) d.(today) d.(crashed)
            d.(learning) d.(salary)
      | Rejected m =>
          set_mounted (Some (mk_results r.(hasSaved) r.(rResume) r.(rJob) r.(data) false
                               (Some m) r.(analysisError) r.(innerTab))) d
      end
  end.

(** User actions, auth changes and other sources of a new render. *)
Inductive event : Type :=
| Analyze                       (* the Analyze button *)
| ViewHistory (it : item)       (* the View button of a history entry *)
| Back                          (* Go Back in [AnalysisResults] *)
| SetTab (t : tab)              (* a Dashboard tab trigger *)
| SetInnerTab (t : inner_tab)   (* a tab trigger inside [AnalysisResults] *)
| Settle (p : promise)          (* the analysis query settles *)
| SettleLearning (v : json)     (* the [learningRecommendations] query resolves *)
| SettleSalary (v : json)       (* the [salaryTrends] query resolves *)
| Rerender                      (* any other re-render *)
| CallSave (pct : option json)  (* a call of [saveToHistory] *)
| SignIn (email : string)       (* the auth context reports a signed-in user *)
| SignOut.                      (* Sign Out: the auth user becomes [null] *)

Definition apply (ev : event) (d : dash) : dash :=
  match ev with
  | Analyze => handleAnalyze d
  | ViewHistory it => handleViewHistory it d
  | Back => onBack d
  | SetTab t => set_tab t d
  | SetInnerTab t => set_inner_tab t d
  | Settle p => settle p d
  | SettleLearning v => set_learning v d
  | SettleSalary v => set_salary v d
  | Rerender => d
  | CallSave pct => saveToHistory pct d
  | SignIn email => set_user (Some email) d
  | SignOut => set_user None d
  end.

Definition tab_is_analyze (t : tab) : bool :=
  match t with TAnalyze => true | _ => false end.

(** [AnalysisResults] is rendered inside the Analyze tab (Radix [Tabs]
    unmount inactive content) when [showResults] holds and a user is signed
    in.  A fresh mount has [hasSaved = false]; a prop change keeps the ref and
    switches the query to the new key. *)
Definition reconcile (d : dash) : dash :=
  let should := d.(showResults) && tab_is_analyze d.(activeTab)
                && match d.(user) with Some _ => true | None => false end in
  if negb should then set_mounted None d
  else
    let c := cache_lookup d.(cache) d.(resumeText) d.(jobDescription) in
    let ld := match c with None => true | Some _ => false end in
    match d.(mounted) with
    | None =>
        set_mounted (Some (mk_results false d.(resumeText) d.(jobDescription) c ld None None
                             IOverview)) d
    | Some r =>
        if String.eqb r.(rResume) d.(resumeText) && String.eqb r.(rJob) d.(jobDescription)
        then d
        else set_mounted (Some (mk_results r.(hasSaved) d.(resumeText) d.(jobDescription)
                                  c ld None r.(analysisError) r.(innerTab))) d
    end.

(** *** What a render evaluates, and where it throws *)

(** [ToPrimitive] of a decoded value (for [>], [-], a template or an
    attribute): it throws only for an object with an own [toString]
    property, which is never callable in decoded JSON, or an array holding
    one ([Array.prototype.join]). *)
Fixpoint to_prim_ok (v : json) : bool :=
  match v with
  | JObj fs => match obj_lookup fs "toString" with Some _ => false | None => true end
  | JArr xs => forallb to_prim_ok xs
  | _ => true
  end.

Definition prim_ok (o : option json) : bool :=
  match o with Some v => to_prim_ok v | None => true end.

(** A valid React child: objects are not, arrays are when their items are. *)
Fixpoint valid_node (v : json) : bool :=
  match v with
  | JObj _ => false
  | JArr xs => forallb valid_node xs
  | _ => true
  end.

Definition node_ok (o : option json) : bool :=
  match o with Some v => valid_node v | None => true end.

(** [o || dflt] *)
Definition or_else (o : option json) (dflt : json) : json :=
  if JsValue.truthy o then match o with Some v => v | None => dflt end else dflt.

Definition field_or (dt : option json) (k : string) (dflt : json) : json :=
  or_else (JsValue.get_opt dt k) dflt.

Definition is_array (v : json) : bool := match v with JArr _ => true | _ => false end.

Definition items (v : json) : list json := match v with JArr xs => xs | _ => [] end.

Definition non_null (v : json) : bool := match v with JNull => false | _ => true end.

(** Lines 313-315: [matchPercentage], [matchedSkills] and [missingSkills];
    [None] when [analysisResults?.skillMatch.overallMatchPercentage] throws. *)
Definition skill_values (dt : option json) : option (json * json * json) :=
  match dt with
  | None | Some JNull => Some (JNum "0", JArr [], JArr [])
  | Some v =>
      match JsValue.get v "skillMatch" with
      | None | Some JNull => None
      | Some sm =>
          Some (or_else (JsValue.get sm "overallMatchPercentage") (JNum "0"),
                or_else (JsValue.get sm "matched") (JArr []),
                or_else (JsValue.get sm "missing") (JArr []))
      end
  end.

(** The remaining lines 347-350. *)
Definition personality_of (dt : option json) : json := field_or dt "personalityFit" (JArr []).
Definition strengths_of (dt : option json) : json := field_or dt "strengths" (JArr []).
Definition weaknesses_of (dt : option json) : json := field_or dt "weaknesses" (JArr []).
Definition advantage_of (dt : option json) : json := field_or dt "competitiveAdvantage" (JStr "").

(** [analysisResults?.recommendations || recommendations] once the learning
    query has data [l]. *)
Definition recs_of (dt : option json) (l : json) : json :=
  or_else (JsValue.get_opt dt "recommendations") l.

(** [rec.priority.toLowerCase()] in [getPriorityVariant]. *)
Definition rec_ok (rec : json) : bool :=
  match rec with
  | JNull => false
  | _ => match JsValue.get rec "priority" with Some (JStr _) => true | _ => false end
  end.

(** The three personality fields and the four recommendation fields shown
    as text. *)
Definition fit_shown (item : json) : bool :=
  node_ok (JsValue.get item "trait") && node_ok (JsValue.get item "matchScore")
  && node_ok (JsValue.get item "jobRequirement").

Definition rec_shown (rec : json) : bool :=
  node_ok (JsValue.get rec "priority") && node_ok (JsValue.get rec "title")
  && node_ok (JsValue.get rec "provider") && node_ok (JsValue.get rec "type")
  && prim_ok (JsValue.get rec "url").

Definition trend_shown (trend : json) : bool :=
  node_ok (JsValue.get trend "role") && node_ok (JsValue.get trend "salaryInINR").

Section Render.
(** [l > n] for the value [l] of an own [length] property of a decoded
    object, after its [ToPrimitive] succeeded (the [ToNumber] comparison). *)
Variable greater_than : json -> nat -> bool.

(** [v.length > n]; [None] when it throws. *)
Definition length_gt (v : json) (n : nat) : option bool :=
  match v with
  | JNull => None
  | JArr xs => Some (Nat.ltb n (List.length xs))
  | JStr s => Some (Nat.ltb n (String.length s))
  | JObj fs =>
      match obj_lookup fs "length" with
      | Some l => if to_prim_ok l then Some (greater_than l n) else None
      | None => Some false
      end
  | _ => Some false
  end.

(** [skill.length > 20 ? skill.substring(0, 20) + "..." : skill] *)
Definition gap_skill_ok (skill : json) : bool :=
  match skill with
  | JNull => false
  | JStr _ => true
  | JArr xs => negb (Nat.ltb 20 (List.length xs))
  | JObj _ => match length_gt skill 20 with Some false => true | _ => false end
  | _ => true
  end.

(** [skills.slice(0, 4).forEach(...)] in [createSkillGapData]. *)
Definition gap_part_ok (skills : json) : bool :=
  match skills with
  | JArr xs => forallb gap_skill_ok (firstn 4 xs)
  | _ => false
  end.

(** [analysisResults?.skillGapData?.length > 0] *)
Definition gaps_given (dt : option json) : option bool :=
  match JsValue.get_opt dt "skillGapData" with
  | None | Some JNull => Some false
  | Some g => length_gt g 0
  end.

(** [skills.length > 0 ? skills.map(...) : ...] in the Skills tab. *)
Definition listed (skills : json) : bool :=
  match length_gt skills 0 with
  | Some true => is_array skills
  | Some false => true
  | None => false
  end.

Definition shown_skills (skills : json) : bool :=
  match length_gt skills 0 with
  | Some true => forallb valid_node (items skills)
  | _ => true
  end.

(** The main branch evaluates the content of all three inner tabs (JSX
    arguments are evaluated eagerly; only the children of the active
    [TabsContent] are rendered).  The [.map] calls and the
    [getPriorityVariant] and [matchScore >= 70] expressions inside their
    callbacks run for every tab. *)
Definition main_ok (dt lq : option json) (matched missing : json) : bool :=
  let fit := personality_of dt in
  is_array (strengths_of dt) && is_array (weaknesses_of dt)
  && listed matched && listed missing
  && is_array fit
  && forallb (fun item => non_null item && prim_ok (JsValue.get item "matchScore")) (items fit)
  && match lq with
     | Some l => is_array (recs_of dt l) && forallb rec_ok (items (recs_of dt l))
     | None => true       (* [recommendationsLoading]: the query fetches *)
     end.

(** The children rendered in the main branch: the score card and the
    active inner tab.  A falsy [matchScoreReasoning] is itself a child, a
    truthy one is the child of the [p]; either way it must be a valid node. *)
Definition children_ok (t : inner_tab) (dt lq : option json) (pct matched missing : json)
  : bool :=
  valid_node pct && node_ok (JsValue.get_opt dt "matchScoreReasoning")
  && match t with
     | IOverview =>
         forallb valid_node (items (strengths_of dt))
         && forallb valid_node (items (weaknesses_of dt))
         && valid_node (advantage_of dt)
         && node_ok (JsValue.get matched "length") && node_ok (JsValue.get missing "length")
     | ISkills =>
         node_ok (JsValue.get matched "length") && node_ok (JsValue.get missing "length")
         && shown_skills matched && shown_skills missing
         && match lq with
            | Some l => forallb rec_shown (items (recs_of dt l))
            | None => true
            end
     | IPersonality => forallb fit_shown (items (personality_of dt))
     end.

(** A render of [AnalysisResults] completes: lines 312-350 run on every
    render, then the branch for [analysisLoading], [analysisError] or the
    results. *)
Definition results_ok (lq : option json) (r : results) : bool :=
  match skill_values r.(data), gaps_given r.(data) with
  | Some (pct, matched, missing), Some given =>
      (given || (gap_part_ok matched && gap_part_ok missing))
      && to_prim_ok pct                                   (* [100 - matchPercentage] *)
      && (r.(loading) || error_shown r
          || (main_ok r.(data) lq matched missing
              && children_ok r.(innerTab) r.(data) lq pct matched missing))
  | _, _ => false
  end.

(** A render of the Dashboard completes.  The [Tabs] exist only for a
    signed-in user; the History list ([item.matchPercentage >= 80]) and the
    salary list ([salaryTrends.map], [trend.role]) are evaluated in every
    tab, their text is rendered in its own tab. *)
Definition dash_ok (d : dash) : bool :=
  match d.(user) with
  | None => true
  | Some _ =>
      forallb (fun it => prim_ok it.(matchPercentage)) d.(history)
      && match d.(activeTab) with
         | THistory => forallb (fun it => node_ok it.(matchPercentage)) d.(history)
         | _ => true
         end
      && match d.(salary) with
         | None => true                    (* [salaryLoading] *)
         | Some s =>
             is_array s && forallb non_null (items s)
             && match d.(activeTab) with
                | TTrends => forallb trend_shown (items s)
                | _ => true
                end
         end
  end.

Definition render_ok (d : dash) : bool :=
  dash_ok d && match d.(mounted) with
               | Some r => results_ok d.(learning) r
               | None => true
               end.

(** Lines 297-303: the one-shot save effect. *)
Definition save_effect (d : dash) : dash :=
  match d.(mounted) with
  | None => d
  | Some r =>
      let no_error := match r.(analysisError) with
                      | None => true
                      | Some m => String.eqb m EmptyString
                      end in
      if JsValue.truthy r.(data) && negb r.(loading) && no_error && negb r.(hasSaved) then
        let pct := JsValue.get_opt (JsValue.get_opt r.(data) "skillMatch")
                     "overallMatchPercentage" in
        set_mounted (Some (mk_results true r.(rResume) r.(rJob) r.(data) r.(loading)
                             r.(queryError) r.(analysisError) r.(innerTab)))
          (saveToHistory pct d)
      else d
  end.

(** Lines 284-295: [analysisError] follows the query error. *)
Definition error_effect (d : dash) : dash :=
  match d.(mounted) with
  | None => d
  | Some r =>
      set_mounted (Some (mk_results r.(hasSaved) r.(rResume) r.(rJob) r.(data) r.(loading)
                           r.(queryError) r.(queryError) r.(innerTab))) d
  end.

(** Dashboard lines 87-94: when [user] changed, a signed-in user's stored
    list (if any) replaces the history. *)
Definition load_effect (d : dash) : dash :=
  if match d.(user), d.(loadedFor) with
     | Some a, Some b => String.eqb a b
     | None, None => true
     | _, _ => false
     end
  then d
  else
    let h := match d.(user) with
             | Some email => match store_get d.(store) email with
                             | Some h => h
                             | None => d.(history)
                             end
             | None => d.(history)
             end in
    mk_dash d.(user) h d.(store) d.(user) d.(hasBeenSaved) d.(showResults) d.(resumeText)
      d.(jobDescription) d.(resumeUploaded) d.(selected) d.(activeTab) d.(mounted) d.(cache)
      d.(now) d.(today) d.(crashed) d.(learning) d.(salary).

(** A commit: a render that throws crashes the app before any effect runs.
    Otherwise the child's effects run first (the save effect sees the
    [analysisError] of this render), then the Dashboard's load effect; the
    state they set causes one more render and save-effect run, and that
    state one more render.  The save effect is evaluated on every commit,
    which covers every change of its dependencies (the [onSaveAnalysis]
    closure changes on each Dashboard render). *)
Definition commit (d : dash) : dash :=
  if negb (render_ok d) then set_crashed d
  else
    let d1 := load_effect (error_effect (save_effect d)) in
    if negb (render_ok d1) then set_crashed d1
    else
      let d2 := save_effect d1 in
      if negb (render_ok d2) then set_crashed d2 else d2.

Definition step (d : dash) (ev : event) : dash :=
  if d.(crashed) then d else commit (reconcile (apply ev d)).

Definition run (evs : list event) (d : dash) : dash := fold_left step evs d.

End Render.

(** Events that neither start a new analysis nor change the signed-in user:
    everything but the Analyze button, a View button of the history list,
    Go Back, sign-in and sign-out. *)
Definition quiet (ev : event) : bool :=
  match ev with
  | Analyze | ViewHistory _ | Back | SignIn _ | SignOut => false
  | _ => true
  end.

Definition session (ev : event) : bool :=
  match ev with SignIn _ | SignOut => true | _ => false end.

Definition signs_in (ev : event) : bool :=
  match ev with SignIn _ => true | _ => false end.

(** *** The declared [ComprehensiveAnalysis] type (supabase.ts lines 14-79) *)

Definition is_obj (v : json) : bool := match v with JObj _ => true | _ => false end.

Definition is_str (o : option json) : bool := match o with Some (JStr _) => true | _ => false end.

Definition is_num (o : option json) : bool := match o with Some (JNum _) => true | _ => false end.

Definition arr_of (p : json -> bool) (o : option json) : bool :=
  match o with Some (JArr xs) => forallb p xs | _ => false end.

Definition str_typed (v : json) : bool := is_str (Some v).

Definition skill_match_typed (v : json) : bool :=
  is_obj v && arr_of str_typed (JsValue.get v "matched")
  && arr_of str_typed (JsValue.get v "missing")
  && is_num (JsValue.get v "overallMatchPercentage").

Definition gap_typed (v : json) : bool :=
  is_obj v && is_str (JsValue.get v "skill") && is_num (JsValue.get v "current")
  && is_num (JsValue.get v "required").

Definition rec_typed (v : json) : bool :=
  is_obj v && is_str (JsValue.get v "title") && is_str (JsValue.get v "type")
  && is_str (JsValue.get v "provider") && is_str (JsValue.get v "duration")
  && is_str (JsValue.get v "priority") && is_str (JsValue.get v "url").

Definition demand_typed (v : json) : bool :=
  is_obj v && is_str (JsValue.get v "skill") && is_str (JsValue.get v "demandLevel")
  && is_str (JsValue.get v "growthTrend").

Definition fit_typed (v : json) : bool :=
  is_obj v && is_str (JsValue.get v "trait") && is_num (JsValue.get v "matchScore")
  && is_str (JsValue.get v "jobRequirement").

Definition career_typed (v : json) : bool :=
  is_obj v && is_str (JsValue.get v "role") && is_str (JsValue.get v "timeframe")
  && is_str (JsValue.get v "potentialSalary")
  && arr_of str_typed (JsValue.get v "requiredSkills").

Definition well_typed (v : json) : bool :=
  is_obj v
  && match JsValue.get v "skillMatch" with Some sm => skill_match_typed sm | None => false end
  && arr_of gap_typed (JsValue.get v "skillGapData")
  && arr_of rec_typed (JsValue.get v "recommendations")
  && arr_of demand_typed (JsValue.get v "industryDemand")
  && arr_of fit_typed (JsValue.get v "personalityFit")
  && arr_of career_typed (JsValue.get v "careerPathSuggestions")
  && arr_of str_typed (JsValue.get v "strengths")
  && arr_of str_typed (JsValue.get v "weaknesses")
  && is_str (JsValue.get v "competitiveAdvantage")
  && match JsValue.get v "matchScoreReasoning" with
     | None | Some (JStr _) => true
     | Some _ => false
     end.

End History.

(** ** URL extraction in [JobDescriptionInput] *)
Module UrlExtract.

(** The state [handleExtractFromUrl] reads and writes: its [jobUrl],
    [jobText] and [extractionError] states, and the Dashboard's
    [jobDescription] set through [onJobDescriptionChange]. *)
Record form : Type := {
  jobUrl : string;
  jobText : string;
  extractionError : option string;
  jobDescription : string
}.

(** How the proxied request ends: [fetch] rejects, or a response arrives
    with its status and either the rejection message of [response.text()]
    ([inl]) or the [textContent] of the main-content element after the
    [script] and [style] elements are removed ([inr]). *)
Inductive fetch_result : Type :=
| FetchRejected (message : string)
| Response (status : nat) (content : string + string).

(** [response.ok] *)
Definition response_ok (status : nat) : bool := Nat.leb 200 status && Nat.leb status 299.

(** Lines 32-40. *)
Definition fetch_error_message (status : nat) : string :=
  if Nat.eqb status 403 then
    "Access denied: The website is blocking automated access. Please use the 'Paste Text' option instead."
  else if Nat.eqb status 404 then
    "Job posting not found. Please check the URL and try again."
  else "Failed to fetch URL: " ++ Js.string_of_nat status.

Definition set_error (fm : form) (m : string) : form :=
  {| jobUrl := fm.(jobUrl); jobText := fm.(jobText); extractionError := Some m;
     jobDescription := fm.(jobDescription) |}.

(** [handleExtractFromUrl] (lines 21-86); every error caught is an [Error],
    so its message is shown. *)
Definition handleExtractFromUrl (fm : form) (res : fetch_result) : form :=
  if String.eqb fm.(jobUrl) EmptyString then fm
  else
    match res with
    | FetchRejected m => set_error fm m
    | Response status content =>
        if negb (response_ok status) then set_error fm (fetch_error_message status)
        else
          match content with
          | inl m => set_error fm m
          | inr textContent =>
              let t := JobPage.stored_job_text textContent in
              {| jobUrl := fm.(jobUrl); jobText := t; extractionError := None;
                 jobDescription := t |}
          end
    end.

End UrlExtract.

(** ** Dashboard callbacks passed to the input components *)
Module Callbacks.

(** [handleResumeUpload(uploaded, extractedText = "")] *)
Definition handleResumeUpload (uploaded : bool) (extractedText : string)
           (d : History.dash) : History.dash :=
  let rt := if negb (String.eqb extractedText EmptyString) then extractedText
            else if negb uploaded then EmptyString
            else d.(History.resumeText) in
  History.mk_dash d.(History.user) d.(History.history) d.(History.store)
    d.(History.loadedFor) d.(History.hasBeenSaved) d.(History.showResults) rt d.(History.jobDescription) uploaded
    d.(History.selected) d.(History.activeTab) d.(History.mounted) d.(History.cache)
    d.(History.now) d.(History.today) d.(History.crashed) d.(History.learning)
    d.(History.salary).

(** [handleJobDescriptionChange(jd)] *)
Definition handleJobDescriptionChange (jd : string) (d : History.dash) : History.dash :=
  History.mk_dash d.(History.user) d.(History.history) d.(History.store)
    d.(History.loadedFor) d.(History.hasBeenSaved) d.(History.showResults) d.(History.resumeText) jd
    d.(History.resumeUploaded) d.(History.selected) d.(History.activeTab) d.(History.mounted)
    d.(History.cache) d.(History.now) d.(History.today) d.(History.crashed)
    d.(History.learning) d.(History.salary).

End Callbacks.

(** ** The analysis query of [AnalysisResults] *)
Module Results.

Definition query_resume_too_short : string :=
  "Resume text is too short for accurate analysis. Please provide a more detailed resume with at least 50 characters.".

Definition query_job_too_short : string :=
  "Job description is too short for accurate analysis. Please provide a more detailed job description with at least 50 characters.".

(** The [queryFn] of the [comprehensiveAnalysis] query (lines 264-276): its
    own checks use the untrimmed lengths. *)
Definition queryFn (JSON_parse : string -> option Json.json) (gt0 : Json.json -> bool)
           (resumeText jobDescription : string) (r : Gemini.reply) : promise :=
  if String.eqb resumeText EmptyString || Nat.ltb (String.length resumeText) 50 then
    Rejected query_resume_too_short
  else if String.eqb jobDescription EmptyString || Nat.ltb (String.length jobDescription) 50 then
    Rejected query_job_too_short
  else Gemini.analyzeResumeJobMatch JSON_parse gt0 resumeText jobDescription r.

End Results.

(** ** Predicates on code units *)
Module Units.

Fixpoint all_units (p : ascii -> bool) (s : string) : bool :=
  match s with
  | EmptyString => true
  | String c r => p c && all_units p r
  end.

Definition printable (c : ascii) : bool :=
  Nat.leb 32 (nat_of_ascii c) && Nat.leb (nat_of_ascii c) 126.

(** No two adjacent whitespace units. *)
Fixpoint single_spaced (s : string) : bool :=
  match s with
  | String a ((String b _) as r) => negb (Js.is_space a && Js.is_space b) && single_spaced r
  | _ => true
  end.

Definition first_unit (s : string) : option ascii := String.get 0 s.

Definition last_unit (s : string) : option ascii := String.get (String.length s - 1) s.

End Units.

(** ** Concrete inputs *)
Module Fixtures.
Import Json.

Definition quote : string := String "034" EmptyString.

(** An HTTP 200 Gemini envelope whose first candidate's text is [t]. *)
Definition text_reply (t : string) : Gemini.reply :=
  Gemini.HttpOk (inr (JObj [("candidates", JArr [JObj [("content", JObj [("parts",
    JArr [JObj [("text", JStr t)]])])]])])).

Definition resume : string :=
  "Software engineer with five years of experience in Python, SQL, React and AWS.".

Definition job : string :=
  "We are hiring a backend developer familiar with Python, Django, PostgreSQL and Docker.".

(** A job page whose main-content text starts with its heading. *)
Definition page_text : string := "Job Description: " ++ Js.repeat_unit 4100 "a".

Definition plain_file : Upload.file :=
  {| Upload.name := "resume.txt"; Upload.type_ := "text/plain"; Upload.size := 77;
     Upload.decoded := Some resume |}.

Definition pdf_file : Upload.file :=
  {| Upload.name := "resume.pdf"; Upload.type_ := "application/pdf"; Upload.size := 2048;
     Upload.decoded := Some "%PDF-1.4 BT (Experienced developer) Tj ET" |}.

Definition image_file : Upload.file :=
  {| Upload.name := "photo.png"; Upload.type_ := "image/png"; Upload.size := 1000;
     Upload.decoded := None |}.

Definition stored_item : History.item :=
  {| History.id := "1700000000000"; History.date := "11/14/2023";
     History.matchPercentage := Some (JNum "72");
     History.jobTitle := Some (History.job_title job);
     History.itemResume := Some resume; History.itemJob := Some job |}.

(** The Dashboard just after sign-in: the history loaded from storage holds
    one entry, the History tab is open. *)
Definition after_sign_in : History.dash :=
  History.mk_dash (Some "user@example.com") [stored_item]
    [("user@example.com", [stored_item])] (Some "user@example.com") false false
    EmptyString EmptyString false None History.THistory None [] 1700000100000%N "11/20/2023"
    false None None.

(** The Dashboard ready to analyse [resume] against [job]. *)
Definition ready : History.dash :=
  History.mk_dash (Some "user@example.com") [] [] (Some "user@example.com") false false
    resume job true None History.TAnalyze None [] 1700000100000%N "11/20/2023" false None None.

End Fixtures.

Lemma length_append (a b : string) :
  String.length (a ++ b) = String.length a + String.length b.
Proof. induction a as [|c a IH]; simpl; [reflexivity | now rewrite IH]. Qed.

Lemma existsb_eqb_In (x : string) (l : list string) :
  existsb (String.eqb x) l = true <-> In x l.
Proof.
  rewrite existsb_exists; split.
  - intros [y [Hy Heq]]. apply String.eqb_eq in Heq. now subst.
  - intros H. exists x. split; [exact H | apply String.eqb_refl].
Qed.

Lemma trim_empty : Js.trim EmptyString = EmptyString.
Proof. reflexivity. Qed.

Lemma nonempty_of_trim_length (s : string) :
  50 <= String.length (Js.trim s) -> String.eqb s EmptyString = false.
Proof.
  intros H. destruct (String.eqb_spec s EmptyString) as [->|]; [|reflexivity].
  rewrite trim_empty in H. simpl in H. lia.
Qed.

(** *** Resume upload *)

(** C7: a file whose declared media type is outside the four accepted ones,
    or whose size exceeds 5,242,880 bytes, is rejected with an error message;
    [onUpload] is never called with a text for it. *)
Theorem C7_invalid_type_or_size_rejected (f : Upload.file) :
  (~ In f.(Upload.type_) Upload.validTypes \/ (5242880 < f.(Upload.size))%N) ->
  (exists msg, Upload.handleFileChange (Some f) = Upload.UploadRejected msg) /\
  (forall text, Upload.handleFileChange (Some f) <> Upload.Uploaded text).
Proof.
  intros H.
  assert (Hr : exists msg, Upload.handleFileChange (Some f) = Upload.UploadRejected msg).
  { unfold Upload.handleFileChange.
    destruct (existsb (String.eqb f.(Upload.type_)) Upload.validTypes) eqn:Ht; simpl.
    - destruct H as [H | H].
      + apply existsb_eqb_In in Ht. contradiction.
      + replace (N.ltb Upload.max_size f.(Upload.size)) with true.
        * eexists; reflexivity.
        * symmetry. apply N.ltb_lt. exact H.
    - eexists; reflexivity. }
  split; [exact Hr|].
  intros text Hu. destruct Hr as [msg Hm]. rewrite Hm in Hu. discriminate.
Qed.

Lemma floor_text_length (n : string) : 50 <= String.length (Upload.floor_text n).
Proof. unfold Upload.floor_text. rewrite length_append. simpl. lia. Qed.

(** C8: every text passed to [onUpload] has at least 50 units; an extracted
    text under 50 units is replaced by the templated sentence naming the
    file, a longer one is passed unchanged. *)
Theorem C8_delivered_text_floor (f : Upload.file) (text : string) :
  Upload.handleFileChange (Some f) = Upload.Uploaded text ->
  50 <= String.length text /\
  exists raw, Upload.extracted_text f = Some raw /\
    (String.length raw < 50 -> text = Upload.floor_text f.(Upload.name)) /\
    (50 <= String.length raw -> text = raw).
Proof.
  unfold Upload.handleFileChange.
  destruct (negb _); [discriminate|].
  destruct (N.ltb _ _); [discriminate|].
  destruct (Upload.extracted_text f) as [raw|] eqn:He; [|discriminate].
  intros Hu. injection Hu as <-. unfold Upload.ensure_minimum.
  destruct (Nat.ltb_spec (String.length raw) 50) as [Hl|Hl].
  - split; [apply floor_text_length|].
    exists raw. split; [reflexivity | split; intros; [reflexivity | lia]].
  - split; [lia|]. exists raw. split; [reflexivity | split; intros; [lia | reflexivity]].
Qed.

(** C9: an accepted plain-text file of at least 50 units is passed to
    [onUpload] exactly as decoded. *)
Theorem C9_plain_text_verbatim (f : Upload.file) (content : string) :
  f.(Upload.type_) = "text/plain" ->
  (f.(Upload.size) <= 5242880)%N ->
  f.(Upload.decoded) = Some content ->
  50 <= String.length content ->
  Upload.handleFileChange (Some f) = Upload.Uploaded content.
Proof.
  intros Ht Hs Hd Hl. unfold Upload.handleFileChange, Upload.extracted_text.
  rewrite Ht, Hd. simpl.
  replace (N.ltb Upload.max_size f.(Upload.size)) with false
    by (symmetry; apply N.ltb_ge; exact Hs).
  unfold Upload.ensure_minimum.
  destruct (Nat.ltb_spec (String.length content) 50); [lia | reflexivity].
Qed.

(** C6: for an accepted PDF the three heuristics (parenthesised tokens,
    [/Text[...]] arrays, printable filtering) are tried in this order, each
    only while the earlier ones gave fewer than 100 units; the first giving at
    least 100 units is the extracted text, and the last one is used when none
    does. *)
Theorem C6_pdf_heuristic_cascade (f : Upload.file) (content : string) :
  f.(Upload.type_) = "application/pdf" ->
  (f.(Upload.size) <= 5242880)%N ->
  f.(Upload.decoded) = Some content ->
  let later :=
    match Upload.heuristic_text_arrays content with
    | Some t2 => if Nat.leb 100 (String.length t2) then t2
                 else Upload.heuristic_printable content
    | None => Upload.heuristic_printable content
    end in
  let chosen :=
    match Upload.heuristic_parens content with
    | Some t1 => if Nat.leb 100 (String.length t1) then t1 else later
    | None => later
    end in
  Upload.extracted_text f = Some chosen /\
  Upload.handleFileChange (Some f) =
    Upload.Uploaded (Upload.ensure_minimum f.(Upload.name) chosen).
Proof.
  intros Ht Hs Hd later chosen.
  assert (Hc : Upload.pdf_text content = chosen).
  { subst later chosen. unfold Upload.pdf_text.
    destruct (Upload.heuristic_parens content) as [t1|];
      destruct (Upload.heuristic_text_arrays content) as [t2|];
      rewrite ?Nat.leb_antisym;
      try change (String.length EmptyString) with 0;
      try replace (Nat.ltb 0 100) with true by reflexivity;
      cbn -[String.length Nat.ltb];
      repeat match goal with
             | |- context [Nat.ltb ?a ?b] =>
                 let E := fresh "E" in destruct (Nat.ltb a b) eqn:E; cbn -[String.length Nat.ltb]
             end;
      try congruence; cbn in *; discriminate. }
  assert (He : Upload.extracted_text f = Some chosen).
  { unfold Upload.extracted_text. rewrite Ht, Hd. simpl. now rewrite Hc. }
  split; [exact He|].
  unfold Upload.handleFileChange. rewrite He, Ht. simpl.
  replace (N.ltb Upload.max_size f.(Upload.size)) with false
    by (symmetry; apply N.ltb_ge; exact Hs).
  reflexivity.
Qed.

Lemma C7_witness :
  (~ In Fixtures.image_file.(Upload.type_) Upload.validTypes
   \/ (5242880 < Fixtures.image_file.(Upload.size))%N) /\
  (exists msg, Upload.handleFileChange (Some Fixtures.image_file) = Upload.UploadRejected msg) /\
  (forall text, Upload.handleFileChange (Some Fixtures.image_file) <> Upload.Uploaded text).
Proof.
  assert (H : ~ In Fixtures.image_file.(Upload.type_) Upload.validTypes
              \/ (5242880 < Fixtures.image_file.(Upload.size))%N).
  { left. simpl. intros [E | [E | [E | [E | []]]]]; discriminate E. }
  split; [exact H | exact (C7_invalid_type_or_size_rejected Fixtures.image_file H)].
Defined.

Lemma C8_witness :
  Upload.handleFileChange (Some Fixtures.plain_file) = Upload.Uploaded Fixtures.resume /\
  50 <= String.length Fixtures.resume /\
  exists raw, Upload.extracted_text Fixtures.plain_file = Some raw /\
    (String.length raw < 50 -> Fixtures.resume = Upload.floor_text Fixtures.plain_file.(Upload.name)) /\
    (50 <= String.length raw -> Fixtures.resume = raw).
Proof.
  assert (H : Upload.handleFileChange (Some Fixtures.plain_file) = Upload.Uploaded Fixtures.resume)
    by (vm_compute; reflexivity).
  split; [exact H | exact (C8_delivered_text_floor Fixtures.plain_file Fixtures.resume H)].
Defined.

Lemma C9_witness :
  50 <= String.length Fixtures.resume /\
  Upload.handleFileChange (Some Fixtures.plain_file) = Upload.Uploaded Fixtures.resume.
Proof.
  assert (Hl : 50 <= String.length Fixtures.resume) by (vm_compute; lia).
  split; [exact Hl|].
  apply (C9_plain_text_verbatim Fixtures.plain_file Fixtures.resume); [reflexivity | | reflexivity | exact Hl].
  vm_compute. discriminate.
Defined.

Lemma C6_witness :
  Fixtures.pdf_file.(Upload.type_) = "application/pdf" /\
  Upload.extracted_text Fixtures.pdf_file
  = Some (Upload.heuristic_printable "%PDF-1.4 BT (Experienced developer) Tj ET").
Proof.
  split; [reflexivity|].
  destruct (C6_pdf_heuristic_cascade Fixtures.pdf_file "%PDF-1.4 BT (Experienced developer) Tj ET")
    as [He _]; [reflexivity | vm_compute; discriminate | reflexivity |].
  rewrite He. vm_compute. reflexivity.
Defined.

(** *** Job posting text *)

(** Off position 0 the code windows the text as the specification says. *)
Lemma window_text_off_start (s : string) :
  JobPage.keyword_index s <> Some 0 -> JobPage.window_text s = JobPage.window_text_spec s.
Proof.
  unfold JobPage.window_text, JobPage.window_text_spec.
  destruct (JobPage.keyword_index s) as [[|i]|]; intros H;
    [contradiction | reflexivity | reflexivity].
Qed.

(** C3 (fails at position 0): when the page text starts with a heading
    ("Job Description: ..."), the match index is 0, which the guard
    [matches && matches.index] treats as no match: the stored text is the
    whole 4117-unit text, not the 4000-unit window the specification gives. *)
Theorem C3_heading_at_start_not_windowed :
  JobPage.keyword_index Fixtures.page_text = Some 0 /\
  JobPage.stored_job_text Fixtures.page_text = Fixtures.page_text /\
  String.length (JobPage.stored_job_text Fixtures.page_text) = 4117 /\
  JobPage.window_text_spec Fixtures.page_text = substring 0 4000 Fixtures.page_text /\
  String.length (JobPage.window_text_spec Fixtures.page_text) = 4000.
Proof. vm_compute. repeat split; reflexivity. Qed.

(** *** Gemini calls *)

Lemma substring_0_length (n : nat) (s : string) : String.length (substring 0 n s) <= n.
Proof.
  revert s; induction n as [|n IH]; intros [|c s]; simpl; try lia.
  specialize (IH s). lia.
Qed.

(** Both array calls return an array of at most 3 elements or a string of at
    most 3 units. *)
Lemma array_calls_at_most_3 (JSON_parse : string -> option Json.json) (r : Gemini.reply) :
  let bounded v := match v with
                   | Json.JArr xs => List.length xs <= 3
                   | Json.JStr s => String.length s <= 3
                   | _ => False
                   end in
  bounded (Gemini.getSalaryTrendsFromGemini JSON_parse r) /\
  bounded (Gemini.getLearningRecommendationsFromGemini JSON_parse r).
Proof.
  intros bounded.
  assert (Hp : forall msg t, match Gemini.parse_array_reply JSON_parse msg t with
                             | Returns v => bounded v
                             | Throws _ => True
                             end).
  { intros msg t. unfold Gemini.parse_array_reply.
    destruct t; try exact I.
    destruct (JSON_parse _) as [v|]; [|exact I].
    destruct v; cbn -[firstn substring]; try exact I; subst bounded; cbn beta iota.
    - apply substring_0_length.
    - rewrite length_firstn. lia. }
  unfold Gemini.getSalaryTrendsFromGemini, Gemini.getLearningRecommendationsFromGemini.
  destruct (Gemini.callGeminiAPI r) as [t|m]; simpl.
  - split.
    + specialize (Hp "Failed to parse salary trends data" t).
      destruct (Gemini.parse_array_reply _ _ _); [exact Hp | simpl; lia].
    + specialize (Hp "Failed to parse learning recommendations data" t).
      destruct (Gemini.parse_array_reply _ _ _); [exact Hp | simpl; lia].
  - simpl. lia.
Qed.

(** C10 (fails when the reply decodes to a string): a reply whose whole text
    is the JSON string literal ["Sorry"] contains no brackets, decodes to a
    string, and [.slice(0, 3)] returns the string ["Sor"], not an array. *)
Theorem C10_string_reply_not_an_array :
  Gemini.getSalaryTrendsFromGemini Json.parse
    (Fixtures.text_reply (Fixtures.quote ++ "Sorry" ++ Fixtures.quote)) = Json.JStr "Sor" /\
  Gemini.getLearningRecommendationsFromGemini Json.parse
    (Fixtures.text_reply (Fixtures.quote ++ "Sorry" ++ Fixtures.quote)) = Json.JStr "Sor".
Proof. split; vm_compute; reflexivity. Qed.

Lemma parse_analysis_message (JSON_parse : string -> option Json.json) (gt0 : Json.json -> bool)
      (t : Json.json) (e : string) :
  Gemini.parse_analysis JSON_parse gt0 t = Throws e -> e = "Failed to parse resume analysis data".
Proof.
  unfold Gemini.parse_analysis.
  destruct t; try (intros H; injection H; auto).
  destruct (JSON_parse _) as [v|]; [|intros H; injection H; auto].
  destruct (Gemini.fix_skill_gaps gt0 v); intros H; [discriminate | injection H; auto].
Qed.

Lemma analysis_body_valid (JSON_parse : string -> option Json.json) (gt0 : Json.json -> bool)
      (resumeText jobDescription : string) (r : Gemini.reply) :
  50 <= String.length (Js.trim resumeText) ->
  50 <= String.length (Js.trim jobDescription) ->
  Gemini.analysis_body JSON_parse gt0 resumeText jobDescription r
  = (t <- Gemini.callGeminiAPI r ;; Gemini.parse_analysis JSON_parse gt0 t).
Proof.
  intros Hr Hj. unfold Gemini.analysis_body.
  rewrite (nonempty_of_trim_length _ Hr), (nonempty_of_trim_length _ Hj).
  destruct (Nat.ltb_spec (String.length (Js.trim resumeText)) 50); [lia|].
  destruct (Nat.ltb_spec (String.length (Js.trim jobDescription)) 50); [lia|].
  reflexivity.
Qed.

Lemma parse_failure_not_too_short :
  Js.includes "Failed to parse resume analysis data" "too short" = false.
Proof. vm_compute. reflexivity. Qed.

(** C1 (amended): when [JSON.parse] throws on the text extracted from the
    reply (the span from the first [{] to the last [}], or the whole reply
    text when there is no such span), the comprehensive analysis (inputs of
    at least 50 trimmed units) resolves to its hardcoded fallback analysis
    instead of failing with the parse error; when [JSON.parse] throws on the
    text extracted in the same way between square brackets, the salary-trends and
    learning-recommendations calls resolve to their fixed three-element
    fallback arrays. *)
Theorem C1_parse_failure_fallbacks (JSON_parse : string -> option Json.json)
        (gt0 : Json.json -> bool) (resumeText jobDescription : string)
        (r : Gemini.reply) (s : string) :
  Gemini.callGeminiAPI r = Returns (Json.JStr s) ->
  (50 <= String.length (Js.trim resumeText) ->
   50 <= String.length (Js.trim jobDescription) ->
   JSON_parse (Gemini.extract_json_text "{" "}" s) = None ->
   Gemini.analyzeResumeJobMatch JSON_parse gt0 resumeText jobDescription r
   = Resolved Gemini.analysis_fallback) /\
  (JSON_parse (Gemini.extract_json_text "[" "]" s) = None ->
   Gemini.getSalaryTrendsFromGemini JSON_parse r = Gemini.salary_fallback /\
   Gemini.getLearningRecommendationsFromGemini JSON_parse r = Gemini.learning_fallback) /\
  (exists a b c, Gemini.salary_fallback = Json.JArr [a; b; c]) /\
  (exists a b c, Gemini.learning_fallback = Json.JArr [a; b; c]).
Proof.
  intros Hcall. split; [|split; [|split]].
  - intros Hr Hj Hp. unfold Gemini.analyzeResumeJobMatch.
    rewrite (analysis_body_valid _ _ _ _ _ Hr Hj), Hcall. cbn [bind].
    unfold Gemini.parse_analysis. rewrite Hp.
    rewrite parse_failure_not_too_short. reflexivity.
  - intros Hp.
    unfold Gemini.getSalaryTrendsFromGemini, Gemini.getLearningRecommendationsFromGemini.
    rewrite Hcall. cbn [bind]. unfold Gemini.parse_array_reply. rewrite Hp.
    split; reflexivity.
  - do 3 eexists. reflexivity.
  - do 3 eexists. reflexivity.
Qed.

(** C1 fails as stated: a reply without any JSON makes the comprehensive
    analysis resolve to the fallback data, with no parse error surfaced. *)
Lemma C1_parse_failure_not_surfaced :
  Gemini.analyzeResumeJobMatch Json.parse (fun _ => false) Fixtures.resume Fixtures.job
    (Fixtures.text_reply "I am unable to analyse this resume right now.")
  = Resolved Gemini.analysis_fallback.
Proof. vm_compute. reflexivity. Qed.

Lemma C1_witness :
  Gemini.callGeminiAPI (Fixtures.text_reply "No data.") = Returns (Json.JStr "No data.") /\
  Gemini.analyzeResumeJobMatch Json.parse (fun _ => false) Fixtures.resume Fixtures.job
    (Fixtures.text_reply "No data.") = Resolved Gemini.analysis_fallback /\
  Gemini.getSalaryTrendsFromGemini Json.parse (Fixtures.text_reply "No data.")
  = Gemini.salary_fallback.
Proof.
  assert (Hc : Gemini.callGeminiAPI (Fixtures.text_reply "No data.")
               = Returns (Json.JStr "No data.")) by reflexivity.
  destruct (C1_parse_failure_fallbacks Json.parse (fun _ => false) Fixtures.resume Fixtures.job
              (Fixtures.text_reply "No data.") "No data." Hc) as [Ha [Hs _]].
  split; [exact Hc|]. split.
  - apply Ha; vm_compute; [lia | lia | reflexivity].
  - apply Hs. vm_compute. reflexivity.
Defined.

(** X14: inputs under 50 trimmed units reject with the "too short"
    validation error; otherwise the call rejects only with an error of the
    Gemini call whose message contains "too short", and every other failure
    (missing key, network error, non-2xx status, malformed envelope, parse
    failure) resolves to the fallback analysis. *)
Theorem X_analysis_error_policy (JSON_parse : string -> option Json.json)
        (gt0 : Json.json -> bool) :
  (forall resumeText jobDescription r,
     String.length (Js.trim resumeText) < 50 ->
     Gemini.analyzeResumeJobMatch JSON_parse gt0 resumeText jobDescription r
     = Rejected Gemini.resume_too_short) /\
  (forall resumeText jobDescription r,
     50 <= String.length (Js.trim resumeText) ->
     String.length (Js.trim jobDescription) < 50 ->
     Gemini.analyzeResumeJobMatch JSON_parse gt0 resumeText jobDescription r
     = Rejected Gemini.job_too_short) /\
  (forall resumeText jobDescription r,
     50 <= String.length (Js.trim resumeText) ->
     50 <= String.length (Js.trim jobDescription) ->
     (forall m, Gemini.analyzeResumeJobMatch JSON_parse gt0 resumeText jobDescription r
                = Rejected m ->
                Gemini.callGeminiAPI r = Throws m /\ Js.includes m "too short" = true) /\
     (forall m, Gemini.callGeminiAPI r = Throws m -> Js.includes m "too short" = false ->
                Gemini.analyzeResumeJobMatch JSON_parse gt0 resumeText jobDescription r
                = Resolved Gemini.analysis_fallback) /\
     (forall t e, Gemini.callGeminiAPI r = Returns t ->
                  Gemini.parse_analysis JSON_parse gt0 t = Throws e ->
                  Gemini.analyzeResumeJobMatch JSON_parse gt0 resumeText jobDescription r
                  = Resolved Gemini.analysis_fallback)).
Proof.
  split; [|split].
  - intros rt jd r H. unfold Gemini.analyzeResumeJobMatch, Gemini.analysis_body.
    destruct (Nat.ltb_spec (String.length (Js.trim rt)) 50); [|lia].
    rewrite orb_true_r. reflexivity.
  - intros rt jd r Hr Hj. unfold Gemini.analyzeResumeJobMatch, Gemini.analysis_body.
    rewrite (nonempty_of_trim_length _ Hr).
    destruct (Nat.ltb_spec (String.length (Js.trim rt)) 50); [lia|].
    destruct (Nat.ltb_spec (String.length (Js.trim jd)) 50); [|lia].
    rewrite orb_true_r. reflexivity.
  - intros rt jd r Hr Hj.
    unfold Gemini.analyzeResumeJobMatch. rewrite (analysis_body_valid _ _ _ _ _ Hr Hj).
    split; [|split].
    + intros m.
      destruct (Gemini.callGeminiAPI r) as [t|m'] eqn:Hc; cbn [bind].
      * destruct (Gemini.parse_analysis JSON_parse gt0 t) as [a|e] eqn:Hp;
          [discriminate|].
        rewrite (parse_analysis_message _ _ _ _ Hp), parse_failure_not_too_short.
        discriminate.
      * destruct (Js.includes m' "too short") eqn:Hi; [|discriminate].
        intros H. injection H as <-. split; [reflexivity | exact Hi].
    + intros m Hc Hi. rewrite Hc. cbn [bind]. rewrite Hi. reflexivity.
    + intros t e Hc Hp. rewrite Hc. cbn [bind]. rewrite Hp.
      rewrite (parse_analysis_message _ _ _ _ Hp), parse_failure_not_too_short.
      reflexivity.
Qed.

(** C5 fails: the [includes("too short")] test meant for the validation
    errors (line 415) also matches an error of the Gemini call itself.  With
    two inputs of more than 50 trimmed units, a Gemini error envelope whose
    message is "Request payload too short" is re-thrown to the caller
    instead of being replaced by the fallback analysis. *)
Theorem C5_upstream_too_short_rethrown :
  50 <= String.length (Js.trim Fixtures.resume) /\
  50 <= String.length (Js.trim Fixtures.job) /\
  Gemini.callGeminiAPI (Gemini.HttpOk (inr (Json.JObj [("error", Json.JObj [("message",
       Json.JStr "Request payload too short")])])))
  = Throws "Request payload too short" /\
  Gemini.analyzeResumeJobMatch Json.parse (fun _ => false) Fixtures.resume Fixtures.job
    (Gemini.HttpOk (inr (Json.JObj [("error", Json.JObj [("message",
       Json.JStr "Request payload too short")])])))
  = Rejected "Request payload too short".
Proof. vm_compute. repeat split; try lia; reflexivity. Qed.

Lemma X_analysis_error_policy_witness :
  Gemini.analyzeResumeJobMatch Json.parse (fun _ => false) "Python developer" Fixtures.job
    Gemini.NoApiKey = Rejected Gemini.resume_too_short /\
  Gemini.analyzeResumeJobMatch Json.parse (fun _ => false) Fixtures.resume Fixtures.job
    Gemini.NoApiKey = Resolved Gemini.analysis_fallback.
Proof.
  destruct (X_analysis_error_policy Json.parse (fun _ => false))
    as [H1 [_ H3]].
  split.
  - apply H1. vm_compute. lia.
  - destruct (H3 Fixtures.resume Fixtures.job Gemini.NoApiKey) as [_ [H _]];
      [vm_compute; lia | vm_compute; lia |].
    apply (H "Gemini API key is not configured"); [reflexivity | vm_compute; reflexivity].
Defined.


Lemma eqb_empty_false (s : string) : 50 <= String.length s -> String.eqb s EmptyString = false.
Proof. destruct s; [cbn; lia | reflexivity]. Qed.

Lemma ltb50_false (s : string) : 50 <= String.length s -> Nat.ltb (String.length s) 50 = false.
Proof. intros H. apply Nat.ltb_ge. exact H. Qed.

Ltac dsimpl :=
  cbn [History.mk_dash History.set_flags History.set_mounted History.set_crashed
       History.mk_results History.user History.history History.store History.loadedFor
       History.hasBeenSaved History.showResults History.resumeText History.jobDescription
       History.resumeUploaded History.selected History.activeTab History.mounted
       History.cache History.now History.today History.crashed History.learning
       History.salary History.hasSaved History.rResume History.rJob History.data
       History.loading History.queryError History.analysisError History.innerTab
       History.tabs_mounted History.error_shown option_map
       History.tab_is_analyze negb andb orb] in *.

(** Functions that leave the user, the loaded user, the history and the
    storage alone. *)
Definition frame (f : History.dash -> History.dash) : Prop :=
  forall d, History.user (f d) = History.user d /\ History.loadedFor (f d) = History.loadedFor d /\
            History.history (f d) = History.history d /\ History.store (f d) = History.store d.

Ltac frame_by_refl := intros ?d; repeat split.

Lemma set_mounted_frame (m : option History.results) : frame (History.set_mounted m).
Proof. frame_by_refl. Qed.

Lemma set_crashed_frame : frame History.set_crashed.
Proof. frame_by_refl. Qed.

Lemma error_effect_frame : frame History.error_effect.
Proof. intros d. unfold History.error_effect. destruct (History.mounted d); repeat split. Qed.

Lemma reconcile_frame : frame History.reconcile.
Proof.
  intros d. unfold History.reconcile.
  destruct (negb _); [repeat split|].
  destruct (History.mounted d); [destruct (_ && _)|]; repeat split.
Qed.

Lemma handleAnalyze_frame : frame History.handleAnalyze.
Proof.
  intros d. unfold History.handleAnalyze.
  destruct (History.user d) eqn:U; [|repeat split; congruence].
  repeat match goal with |- context [if ?b then _ else _] => destruct b end; repeat split;
    dsimpl; congruence.
Qed.

Lemma handleViewHistory_frame (it : History.item) : frame (History.handleViewHistory it).
Proof.
  intros d. unfold History.handleViewHistory.
  destruct (History.itemResume it), (History.itemJob it); [destruct (_ && _)| | |];
    repeat split.
Qed.

Lemma onBack_frame : frame History.onBack.
Proof. intros d. unfold History.onBack. destruct (History.selected d); repeat split. Qed.

Lemma set_inner_tab_frame (t : History.inner_tab) : frame (History.set_inner_tab t).
Proof.
  intros d. unfold History.set_inner_tab.
  destruct (History.mounted d); [destruct (_ || _)|]; repeat split.
Qed.

Lemma settle_frame (p : promise) : frame (History.settle p).
Proof.
  intros d. unfold History.settle. destruct (History.mounted d); [destruct p|]; repeat split.
Qed.

Lemma id_frame : frame (fun d => d).
Proof. frame_by_refl. Qed.

(** Every event but a save call and a change of the auth user is a frame. *)
Lemma apply_frame (ev : History.event) :
  match ev with History.CallSave _ | History.SignIn _ | History.SignOut => False | _ => True end ->
  frame (History.apply ev).
Proof.
  destruct ev; cbn [History.apply]; intros H; try contradiction.
  - apply handleAnalyze_frame.
  - apply handleViewHistory_frame.
  - apply onBack_frame.
  - frame_by_refl.
  - apply set_inner_tab_frame.
  - apply settle_frame.
  - frame_by_refl.
  - frame_by_refl.
  - apply id_frame.
Qed.

Lemma store_get_put_same (st : list (string * list History.item)) (k : string) (h : list History.item) :
  History.store_get (History.store_put st k h) k = Some h.
Proof.
  induction st as [|[k' h'] st IH]; cbn; [rewrite String.eqb_refl; reflexivity|].
  destruct (String.eqb_spec k k') as [<-|Hne]; cbn.
  - rewrite String.eqb_refl. reflexivity.
  - apply String.eqb_neq in Hne. rewrite Hne. exact IH.
Qed.

Lemma load_effect_id (d : History.dash) :
  History.loadedFor d = History.user d -> History.load_effect d = d.
Proof.
  intros H. unfold History.load_effect. rewrite H.
  destruct (History.user d); [rewrite String.eqb_refl|]; reflexivity.
Qed.

(** Once a record is saved (and the user's history loaded), the flag
    stays set and the history stays as it is. *)
Definition keeps_saved (f : History.dash -> History.dash) : Prop :=
  forall d, History.hasBeenSaved d = true -> History.loadedFor d = History.user d ->
    History.hasBeenSaved (f d) = true /\ History.loadedFor (f d) = History.user (f d) /\
    History.history (f d) = History.history d.

(** At most one record is put in front of the history, and only together
    with [hasBeenSaved]. *)
Definition grows_once (f : History.dash -> History.dash) : Prop :=
  forall d, History.loadedFor d = History.user d ->
    History.loadedFor (f d) = History.user (f d) /\
    (History.history (f d) = History.history d \/
     (History.hasBeenSaved (f d) = true /\
      exists it, History.history (f d) = it :: History.history d)).

(** The signed-in user's storage entry equals the in-memory history. *)
Definition mirrors (f : History.dash -> History.dash) : Prop :=
  forall d email, History.user d = Some email -> History.loadedFor d = History.user d ->
    History.store_get (History.store d) email = Some (History.history d) ->
    History.user (f d) = Some email /\ History.loadedFor (f d) = History.user (f d) /\
    History.store_get (History.store (f d)) email = Some (History.history (f d)).

Definition signed_out_keeps (f : History.dash -> History.dash) : Prop :=
  forall d, History.user d = None ->
            History.user (f d) = None /\ History.history (f d) = History.history d.

Lemma keeps_compose (f g : History.dash -> History.dash) :
  keeps_saved f -> keeps_saved g -> keeps_saved (fun d => g (f d)).
Proof.
  intros Hf Hg d H L. destruct (Hf d H L) as [H1 [L1 E1]]. destruct (Hg _ H1 L1) as [H2 [L2 E2]].
  split; [exact H2 | split; [exact L2 | congruence]].
Qed.

Lemma grows_once_compose (f g : History.dash -> History.dash) :
  grows_once f -> grows_once g -> keeps_saved g -> grows_once (fun d => g (f d)).
Proof.
  intros Hf Hg Kg d L. destruct (Hf d L) as [L1 [E | [Hs [it E]]]].
  - destruct (Hg (f d) L1) as [L2 [E2 | [Hs2 [it E2]]]]; split; [exact L2 | left; congruence | exact L2 |].
    right. split; [exact Hs2|]. exists it. congruence.
  - destruct (Kg _ Hs L1) as [Hs2 [L2 E2]]. split; [exact L2|].
    right. split; [exact Hs2|]. exists it. congruence.
Qed.

Lemma mirrors_compose (f g : History.dash -> History.dash) :
  mirrors f -> mirrors g -> mirrors (fun d => g (f d)).
Proof.
  intros Hf Hg d e U L S. destruct (Hf d e U L S) as [U1 [L1 S1]]. exact (Hg _ e U1 L1 S1).
Qed.

Lemma so_compose (f g : History.dash -> History.dash) :
  signed_out_keeps f -> signed_out_keeps g -> signed_out_keeps (fun d => g (f d)).
Proof.
  intros Hf Hg d U. destruct (Hf d U) as [U1 E1]. destruct (Hg _ U1) as [U2 E2].
  split; [exact U2 | congruence].
Qed.

Lemma frame_keeps (f : History.dash -> History.dash) :
  frame f -> (forall d, History.hasBeenSaved (f d) = History.hasBeenSaved d) -> keeps_saved f.
Proof.
  intros Hf Hb d H L. destruct (Hf d) as [U [L1 [E _]]].
  split; [congruence | split; congruence].
Qed.

Lemma frame_grows (f : History.dash -> History.dash) : frame f -> grows_once f.
Proof. intros Hf d L. destruct (Hf d) as [U [L1 [E _]]]. split; [congruence | left; exact E]. Qed.

Lemma frame_mirrors (f : History.dash -> History.dash) : frame f -> mirrors f.
Proof. intros Hf d e U L S. destruct (Hf d) as [U1 [L1 [E St]]]. repeat split; congruence. Qed.

Lemma frame_so (f : History.dash -> History.dash) : frame f -> signed_out_keeps f.
Proof. intros Hf d U. destruct (Hf d) as [U1 [_ [E _]]]. split; congruence. Qed.

Lemma set_mounted_keeps (m : option History.results) : keeps_saved (History.set_mounted m).
Proof. apply frame_keeps; [apply set_mounted_frame | reflexivity]. Qed.

Lemma set_crashed_keeps : keeps_saved History.set_crashed.
Proof. apply frame_keeps; [apply set_crashed_frame | reflexivity]. Qed.

Lemma error_effect_keeps : keeps_saved History.error_effect.
Proof.
  apply frame_keeps; [apply error_effect_frame|].
  intros d. unfold History.error_effect. destruct (History.mounted d); reflexivity.
Qed.

Lemma reconcile_keeps : keeps_saved History.reconcile.
Proof.
  apply frame_keeps; [apply reconcile_frame|].
  intros d. unfold History.reconcile.
  destruct (negb _); [reflexivity|].
  destruct (History.mounted d); [destruct (_ && _)|]; reflexivity.
Qed.

Lemma saveToHistory_keeps (pct : option Json.json) : keeps_saved (History.saveToHistory pct).
Proof.
  intros d H L. unfold History.saveToHistory.
  destruct (History.user d) eqn:U; [rewrite H|]; rewrite ?U; auto.
Qed.

Lemma save_effect_keeps : keeps_saved History.save_effect.
Proof.
  intros d H L. unfold History.save_effect.
  destruct (History.mounted d) as [r|]; [|auto].
  match goal with |- context [if ?b then _ else _] => destruct b end; [|auto].
  apply (keeps_compose _ _ (saveToHistory_keeps _) (set_mounted_keeps _)); assumption.
Qed.

Lemma load_effect_keeps : keeps_saved History.load_effect.
Proof. intros d H L. rewrite (load_effect_id d L). auto. Qed.

Lemma saveToHistory_grows (pct : option Json.json) : grows_once (History.saveToHistory pct).
Proof.
  intros d L. unfold History.saveToHistory.
  destruct (History.user d) eqn:U; [|split; [congruence | left; reflexivity]].
  destruct (History.hasBeenSaved d); [split; [congruence | left; reflexivity]|].
  split; [cbn; congruence|]. right. split; [reflexivity|]. eexists. reflexivity.
Qed.

Lemma save_effect_grows : grows_once History.save_effect.
Proof.
  intros d L. unfold History.save_effect.
  destruct (History.mounted d) as [r|]; [|split; [exact L | left; reflexivity]].
  match goal with |- context [if ?b then _ else _] => destruct b end;
    [|split; [exact L | left; reflexivity]].
  match goal with |- context [History.set_mounted ?m (History.saveToHistory ?pct d)] =>
    exact (grows_once_compose (History.saveToHistory pct) (History.set_mounted m)
             (saveToHistory_grows pct) (frame_grows _ (set_mounted_frame m))
             (set_mounted_keeps m) d L)
  end.
Qed.

Lemma load_effect_grows : grows_once History.load_effect.
Proof. intros d L. rewrite (load_effect_id d L). split; [exact L | left; reflexivity]. Qed.

Lemma saveToHistory_mirrors (pct : option Json.json) : mirrors (History.saveToHistory pct).
Proof.
  intros d e U L S. unfold History.saveToHistory. rewrite U.
  destruct (History.hasBeenSaved d); [auto|]. dsimpl.
  split; [congruence | split; [congruence | apply store_get_put_same]].
Qed.

Lemma save_effect_mirrors : mirrors History.save_effect.
Proof.
  intros d e U L S. unfold History.save_effect.
  destruct (History.mounted d) as [r|]; [|auto].
  match goal with |- context [if ?b then _ else _] => destruct b end; [|auto].
  apply (mirrors_compose _ _ (saveToHistory_mirrors _) (frame_mirrors _ (set_mounted_frame _)));
    assumption.
Qed.

Lemma load_effect_mirrors : mirrors History.load_effect.
Proof. intros d e U L S. rewrite (load_effect_id d L). auto. Qed.

Lemma saveToHistory_so (pct : option Json.json) : signed_out_keeps (History.saveToHistory pct).
Proof. intros d H. unfold History.saveToHistory. rewrite H. auto. Qed.

Lemma save_effect_so : signed_out_keeps History.save_effect.
Proof.
  intros d H. unfold History.save_effect.
  destruct (History.mounted d) as [r|]; [|auto].
  match goal with |- context [if ?b then _ else _] => destruct b end; [|auto].
  apply (so_compose _ _ (saveToHistory_so _) (frame_so _ (set_mounted_frame _))); assumption.
Qed.

Lemma load_effect_so : signed_out_keeps History.load_effect.
Proof.
  intros d H. unfold History.load_effect. rewrite H.
  destruct (History.loadedFor d); [|auto]. cbn. auto.
Qed.

Lemma arr_of_inv (p : Json.json -> bool) (o : option Json.json) :
  History.arr_of p o = true -> exists xs, o = Some (Json.JArr xs) /\ forallb p xs = true.
Proof. destruct o as [[]|]; try discriminate. intros H. eauto. Qed.

Lemma is_str_inv (o : option Json.json) : History.is_str o = true -> exists s, o = Some (Json.JStr s).
Proof. destruct o as [[]|]; try discriminate. eauto. Qed.

Lemma is_num_inv (o : option Json.json) : History.is_num o = true -> exists s, o = Some (Json.JNum s).
Proof. destruct o as [[]|]; try discriminate. eauto. Qed.

Lemma forallb_mono (A : Type) (p q : A -> bool) (xs : list A) :
  (forall x, p x = true -> q x = true) -> forallb p xs = true -> forallb q xs = true.
Proof.
  intros Hpq. induction xs as [|x xs IH]; cbn; [reflexivity|].
  rewrite !andb_true_iff. intros [H1 H2]. split; [apply Hpq, H1 | apply IH, H2].
Qed.

Lemma forallb_firstn (A : Type) (p : A -> bool) (n : nat) (xs : list A) :
  forallb p xs = true -> forallb p (firstn n xs) = true.
Proof.
  revert xs. induction n as [|n IH]; intros [|x xs]; cbn; try reflexivity.
  rewrite !andb_true_iff. intros [H1 H2]. split; [exact H1 | apply IH, H2].
Qed.

Ltac split_andb H :=
  repeat match type of H with
         | (_ && _)%bool = true => apply andb_true_iff in H; destruct H as [H ?H]
         | _ /\ _ => destruct H as [H ?H]
         end.

Lemma str_valid (x : Json.json) : History.str_typed x = true -> History.valid_node x = true.
Proof. destruct x; try discriminate; reflexivity. Qed.


Lemma obj_fields (x : Json.json) :
  History.is_obj x = true -> exists fs, x = Json.JObj fs.
Proof. destruct x; try discriminate; eauto. Qed.

Lemma rec_typed_ok (x : Json.json) :
  History.rec_typed x = true -> History.rec_ok x = true /\ History.rec_shown x = true.
Proof.
  unfold History.rec_typed. intros H. split_andb H.
  destruct (obj_fields _ H) as [fs ->].
  unfold History.rec_ok, History.rec_shown.
  repeat match goal with
         | Hs : History.is_str _ = true |- _ =>
             let E := fresh "E" in destruct (is_str_inv _ Hs) as [? E]; clear Hs; try rewrite E
         end.
  split; reflexivity.
Qed.

Lemma fit_typed_ok (x : Json.json) :
  History.fit_typed x = true ->
  (History.non_null x && History.prim_ok (JsValue.get x "matchScore"))%bool = true
  /\ History.fit_shown x = true.
Proof.
  unfold History.fit_typed. intros H. split_andb H.
  destruct (obj_fields _ H) as [fs ->].
  unfold History.fit_shown.
  repeat match goal with
         | Hs : History.is_str _ = true |- _ =>
             let E := fresh "E" in destruct (is_str_inv _ Hs) as [? E]; clear Hs; try rewrite E
         | Hs : History.is_num _ = true |- _ =>
             let E := fresh "E" in destruct (is_num_inv _ Hs) as [? E]; clear Hs; try rewrite E
         end.
  split; reflexivity.
Qed.

Section WT.
Variable gt : Json.json -> nat -> bool.

Lemma str_gap (x : Json.json) : History.str_typed x = true -> History.gap_skill_ok gt x = true.
Proof. destruct x; try discriminate; reflexivity. Qed.

Lemma well_typed_results (lq : option Json.json) (r : History.results) (v : Json.json) :
  History.data r = Some v -> History.well_typed v = true -> History.results_ok gt lq r = true.
Proof.
  intros Hd Hv. unfold History.results_ok. rewrite Hd.
  unfold History.well_typed in Hv. split_andb Hv.
  destruct (obj_fields _ Hv) as [fs ->].
  destruct (JsValue.get (Json.JObj fs) "skillMatch") as [sm|] eqn:Esm; [|discriminate].
  match goal with H : History.skill_match_typed sm = true |- _ =>
    unfold History.skill_match_typed in H; split_andb H end.
  match goal with H : History.is_obj sm = true |- _ => destruct (obj_fields _ H) as [sfs ->] end.
  repeat match goal with
   | H : History.arr_of _ ?t = true |- _ =>
       let E := fresh "E" in let F := fresh "F" in
       destruct (arr_of_inv _ _ H) as [? [E F]]; clear H; try rewrite E
   | H : History.is_str ?t = true |- _ =>
       let E := fresh "E" in destruct (is_str_inv _ H) as [? E]; clear H; try rewrite E
   | H : History.is_num ?t = true |- _ =>
       let E := fresh "E" in destruct (is_num_inv _ H) as [? E]; clear H; try rewrite E
   end.
  cbn [History.skill_values History.gaps_given JsValue.get_opt].
  rewrite Esm, E, E0, E9.
  unfold History.gaps_given, History.main_ok, History.children_ok, History.personality_of,
    History.strengths_of, History.weaknesses_of, History.advantage_of, History.recs_of,
    History.field_or.
  cbn [JsValue.get_opt]. rewrite E1, E2, E4, E6, E7, E8.
  assert (G1 : forall ys, forallb History.str_typed ys = true ->
                forallb (History.gap_skill_ok gt) (firstn 4 ys) = true)
    by (intros ys Y; apply forallb_firstn, (forallb_mono _ _ _ _ str_gap), Y).
  assert (G2 : forall ys, forallb History.str_typed ys = true -> forallb History.valid_node ys = true)
    by (intros ys Y; apply (forallb_mono _ _ _ _ str_valid), Y).
  assert (G3 : History.to_prim_ok (History.or_else (Some (Json.JNum x9)) (Json.JNum "0")) = true
               /\ History.valid_node (History.or_else (Some (Json.JNum x9)) (Json.JNum "0")) = true)
    by (unfold History.or_else; destruct (JsValue.truthy _); split; reflexivity).
  assert (G4 : forallb History.rec_ok x2 = true /\ forallb History.rec_shown x2 = true)
    by (split; refine (forallb_mono _ _ _ _ _ F2); intros y Y; apply (rec_typed_ok y Y)).
  assert (G5 : forallb (fun item => History.non_null item
                          && History.prim_ok (JsValue.get item "matchScore"))%bool x4 = true
               /\ forallb History.fit_shown x4 = true)
    by (split; refine (forallb_mono _ _ _ _ _ F4); intros y Y; apply (fit_typed_ok y Y)).
  assert (G6 : History.valid_node (History.or_else (Some (Json.JStr x8)) (Json.JStr "")) = true)
    by (unfold History.or_else; destruct (JsValue.truthy _); reflexivity).
  destruct G3 as [G3 G3'], G4 as [G4 G4'], G5 as [G5 G5'].
  destruct (JsValue.get (Json.JObj fs) "matchScoreReasoning") as [[]|]; try discriminate.
  all: cbn -[firstn]; rewrite G3, G3', G6, (G1 x F), (G1 x0 F0), G5, (G2 x6 F6), (G2 x7 F7),
         (G2 x F), (G2 x0 F0).
  all: destruct (History.innerTab r), lq; rewrite ?G4, ?G4', ?G5'.
  all: repeat match goal with |- context [match ?n with 0 => _ | S _ => _ end] => destruct n end.
  all: cbn; rewrite ?orb_true_r; reflexivity.
Qed.
End WT.


Lemma dash_ok_same (d d' : History.dash) :
  History.user d = History.user d' -> History.history d = History.history d' ->
  History.activeTab d = History.activeTab d' -> History.salary d = History.salary d' ->
  History.dash_ok d = History.dash_ok d'.
Proof. intros U H T S. unfold History.dash_ok. rewrite U, H, T, S. reflexivity. Qed.

Lemma cache_lookup_typed (c : list (string * string * Json.json)) (r j : string) (v : Json.json) :
  Forall (fun e => History.well_typed (snd e) = true) c ->
  History.cache_lookup c r j = Some v -> History.well_typed v = true.
Proof.
  induction 1 as [|[[r' j'] w] c Hw _ IH]; cbn; [discriminate|].
  destruct (String.eqb r r' && String.eqb j j'); [intros E; injection E as <-; exact Hw | exact IH].
Qed.

Lemma well_typed_truthy (v : Json.json) :
  History.well_typed v = true -> JsValue.truthy (Some v) = true.
Proof. destruct v; cbn; try discriminate; reflexivity. Qed.

Section Runs.
(** The comparison [l > n] of the render model. *)
Variable gt : Json.json -> nat -> bool.

Lemma commit_cases (d : History.dash) :
  History.commit gt d = History.set_crashed d \/
  (History.render_ok gt d = true /\
   (History.commit gt d = History.set_crashed
      (History.load_effect (History.error_effect (History.save_effect d))) \/
    History.commit gt d = History.set_crashed (History.save_effect
      (History.load_effect (History.error_effect (History.save_effect d)))) \/
    History.commit gt d = History.save_effect
      (History.load_effect (History.error_effect (History.save_effect d))))).
Proof.
  unfold History.commit. destruct (History.render_ok gt d) eqn:R; cbn [negb];
    [right; split; [reflexivity|] | left; reflexivity].
  cbv zeta.
  destruct (History.render_ok gt (History.load_effect _)); cbn [negb]; [|left; reflexivity].
  destruct (History.render_ok gt (History.save_effect _)); cbn [negb];
    [right; right | right; left]; reflexivity.
Qed.


Lemma commit_keeps : keeps_saved (History.commit gt).
Proof.
  pose proof (keeps_compose _ _ (keeps_compose _ _ save_effect_keeps error_effect_keeps)
                load_effect_keeps) as K1.
  intros d H L. destruct (commit_cases d) as [E | [_ [E | [E | E]]]]; rewrite E.
  - exact (set_crashed_keeps d H L).
  - exact (keeps_compose _ _ K1 set_crashed_keeps d H L).
  - exact (keeps_compose _ _ (keeps_compose _ _ K1 save_effect_keeps) set_crashed_keeps d H L).
  - exact (keeps_compose _ _ K1 save_effect_keeps d H L).
Qed.

Lemma commit_grows : grows_once (History.commit gt).
Proof.
  pose proof (keeps_compose _ _ (keeps_compose _ _ save_effect_keeps error_effect_keeps)
                load_effect_keeps) as K1.
  pose proof (grows_once_compose _ _
                (grows_once_compose _ _ save_effect_grows (frame_grows _ error_effect_frame)
                   error_effect_keeps)
                load_effect_grows load_effect_keeps) as G1.
  pose proof (frame_grows _ set_crashed_frame) as Gc.
  pose proof (grows_once_compose _ _ G1 save_effect_grows save_effect_keeps) as G2.
  intros d L. destruct (commit_cases d) as [E | [_ [E | [E | E]]]]; rewrite E.
  - exact (Gc d L).
  - exact (grows_once_compose _ _ G1 Gc set_crashed_keeps d L).
  - exact (grows_once_compose _ _ G2 Gc set_crashed_keeps d L).
  - exact (G2 d L).
Qed.

Lemma commit_mirrors : mirrors (History.commit gt).
Proof.
  pose proof (mirrors_compose _ _
                (mirrors_compose _ _ save_effect_mirrors (frame_mirrors _ error_effect_frame))
                load_effect_mirrors) as M1.
  pose proof (frame_mirrors _ set_crashed_frame) as Mc.
  intros d e U L S. destruct (commit_cases d) as [E | [_ [E | [E | E]]]]; rewrite E.
  - exact (Mc d e U L S).
  - exact (mirrors_compose _ _ M1 Mc d e U L S).
  - exact (mirrors_compose _ _ (mirrors_compose _ _ M1 save_effect_mirrors) Mc d e U L S).
  - exact (mirrors_compose _ _ M1 save_effect_mirrors d e U L S).
Qed.

Lemma commit_so : signed_out_keeps (History.commit gt).
Proof.
  pose proof (so_compose _ _
                (so_compose _ _ save_effect_so (frame_so _ error_effect_frame))
                load_effect_so) as S1.
  pose proof (frame_so _ set_crashed_frame) as Sc.
  intros d U. destruct (commit_cases d) as [E | [_ [E | [E | E]]]]; rewrite E.
  - exact (Sc d U).
  - exact (so_compose _ _ S1 Sc d U).
  - exact (so_compose _ _ (so_compose _ _ S1 save_effect_so) Sc d U).
  - exact (so_compose _ _ S1 save_effect_so d U).
Qed.

Lemma apply_quiet_keeps (ev : History.event) :
  History.quiet ev = true -> keeps_saved (History.apply ev).
Proof.
  intros Hq. destruct ev; try discriminate;
    try (apply frame_keeps; [apply apply_frame; exact I|]).
  - reflexivity.
  - intros d. cbn [History.apply]. unfold History.set_inner_tab.
    destruct (History.mounted d); [destruct (_ || _)|]; reflexivity.
  - intros d. cbn [History.apply]. unfold History.settle.
    destruct (History.mounted d); [destruct p|]; reflexivity.
  - reflexivity.
  - reflexivity.
  - reflexivity.
  - apply saveToHistory_keeps.
Qed.

Lemma apply_grows (ev : History.event) :
  History.session ev = false -> grows_once (History.apply ev).
Proof.
  intros Hs. destruct ev; try discriminate;
    try (apply frame_grows, apply_frame; exact I).
  apply saveToHistory_grows.
Qed.

Lemma apply_mirrors (ev : History.event) :
  History.session ev = false -> mirrors (History.apply ev).
Proof.
  intros Hs. destruct ev; try discriminate;
    try (apply frame_mirrors, apply_frame; exact I).
  apply saveToHistory_mirrors.
Qed.

Lemma apply_so (ev : History.event) :
  History.signs_in ev = false -> signed_out_keeps (History.apply ev).
Proof.
  intros Hs. destruct ev; try discriminate;
    try (apply frame_so, apply_frame; exact I).
  - apply saveToHistory_so.
  - intros d U. split; reflexivity.
Qed.

Lemma step_quiet_keeps (ev : History.event) :
  History.quiet ev = true -> keeps_saved (fun d => History.step gt d ev).
Proof.
  intros Hq d H L. unfold History.step.
  destruct (History.crashed d); [auto|].
  exact (keeps_compose _ _ (keeps_compose _ _ (apply_quiet_keeps ev Hq) reconcile_keeps)
           commit_keeps d H L).
Qed.

Lemma run_quiet_keeps (evs : list History.event) :
  Forall (fun ev => History.quiet ev = true) evs -> keeps_saved (History.run gt evs).
Proof.
  induction 1 as [|ev evs Hq _ IH]; intros d H L; [auto|].
  unfold History.run; cbn [fold_left].
  destruct (step_quiet_keeps ev Hq d H L) as [H1 [L1 E1]].
  destruct (IH _ H1 L1) as [H2 [L2 E2]].
  unfold History.run in H2, L2, E2. split; [exact H2 | split; [exact L2 | congruence]].
Qed.

Lemma step_grows (ev : History.event) :
  History.session ev = false -> grows_once (fun d => History.step gt d ev).
Proof.
  intros Hs d L. unfold History.step.
  destruct (History.crashed d); [split; [exact L | left; reflexivity]|].
  exact (grows_once_compose _ _
           (grows_once_compose _ _ (apply_grows ev Hs) (frame_grows _ reconcile_frame)
              reconcile_keeps)
           commit_grows commit_keeps d L).
Qed.

(** X1: as long as nobody signs in or out and the signed-in user's history
    has been loaded, every Dashboard event leaves the existing history in
    place and puts at most one new record in front of it; over a run of [n]
    events at most [n] records are added, all in front. *)
Theorem X_history_prepend_only (evs : list History.event) (d : History.dash) :
  Forall (fun ev => History.session ev = false) evs ->
  History.loadedFor d = History.user d ->
  exists pre, List.length pre <= List.length evs /\
              History.history (History.run gt evs d) = (pre ++ History.history d)%list.
Proof.
  intros Hs. revert d. induction Hs as [|ev evs He _ IH]; intros d L.
  - exists []. split; reflexivity.
  - unfold History.run; cbn [fold_left].
    destruct (step_grows ev He d L) as [L1 G].
    destruct (IH _ L1) as [p2 [L2 E2]]. unfold History.run in E2.
    destruct G as [E1 | [_ [it E1]]].
    + exists p2. split; [cbn; lia | congruence].
    + exists (p2 ++ [it])%list. split.
      * rewrite length_app. cbn. lia.
      * rewrite E2, E1, <- app_assoc. reflexivity.
Qed.

(** X2: as long as nobody signs in or out, once the signed-in user's
    [localStorage] entry equals the loaded in-memory history, the two stay
    equal after every run. *)
Theorem X_storage_mirrors_history (evs : list History.event) (d : History.dash) (email : string) :
  History.user d = Some email -> History.loadedFor d = History.user d ->
  History.store_get (History.store d) email = Some (History.history d) ->
  Forall (fun ev => History.session ev = false) evs ->
  History.store_get (History.store (History.run gt evs d)) email
  = Some (History.history (History.run gt evs d)).
Proof.
  intros U L S Hs. revert d U L S. induction Hs as [|ev evs He _ IH]; intros d U L S; [exact S|].
  unfold History.run; cbn [fold_left]. unfold History.run in IH.
  assert (M : mirrors (fun d => History.step gt d ev)).
  { intros d' e U' L' S'. unfold History.step.
    destruct (History.crashed d'); [auto|].
    exact (mirrors_compose _ _ (mirrors_compose _ _ (apply_mirrors ev He)
             (frame_mirrors _ reconcile_frame)) commit_mirrors d' e U' L' S'). }
  destruct (M d email U L S) as [U1 [L1 S1]]. exact (IH _ U1 L1 S1).
Qed.

(** X3: without a signed-in user, no run of events in which nobody signs in
    changes the history list. *)
Theorem X_signed_out_history_unchanged (evs : list History.event) (d : History.dash) :
  History.user d = None -> Forall (fun ev => History.signs_in ev = false) evs ->
  History.history (History.run gt evs d) = History.history d.
Proof.
  intros U Hs. enough (G : History.user (History.run gt evs d) = None /\
                           History.history (History.run gt evs d) = History.history d)
    by apply G.
  revert d U. induction Hs as [|ev evs He _ IH]; intros d U; [auto|].
  unfold History.run; cbn [fold_left]. unfold History.run in IH.
  assert (S : signed_out_keeps (fun d => History.step gt d ev)).
  { intros d' U'. unfold History.step.
    destruct (History.crashed d'); [auto|].
    exact (so_compose _ _ (so_compose _ _ (apply_so ev He) (frame_so _ reconcile_frame))
             commit_so d' U'). }
  destruct (S d U) as [U1 E1]. destruct (IH _ U1) as [U2 E2]. split; [exact U2 | congruence].
Qed.

Lemma commit_saves (d : History.dash) (r : History.results) (u : string) (v : Json.json) :
  History.user d = Some u -> History.loadedFor d = History.user d ->
  History.mounted d = Some r -> History.data r = Some v -> History.well_typed v = true ->
  History.loading r = false -> History.analysisError r = None ->
  History.hasSaved r = false -> History.hasBeenSaved d = false ->
  History.dash_ok d = true ->
  History.hasBeenSaved (History.commit gt d) = true /\
  History.loadedFor (History.commit gt d) = History.user (History.commit gt d) /\
  exists it, History.history (History.commit gt d) = it :: History.history d /\
             History.itemResume it = Some (History.resumeText d) /\
             History.itemJob it = Some (History.jobDescription d).
Proof.
  intros Hu L Hm Hd Hv Hl He Hs Hb Hdash.
  assert (Hok : History.render_ok gt d = true).
  { unfold History.render_ok. rewrite Hdash, Hm. exact (well_typed_results gt _ r v Hd Hv). }
  assert (H0 : History.hasBeenSaved (History.save_effect d) = true /\
               History.loadedFor (History.save_effect d) = History.user (History.save_effect d) /\
               exists it, History.history (History.save_effect d) = it :: History.history d /\
                 History.itemResume it = Some (History.resumeText d) /\
                 History.itemJob it = Some (History.jobDescription d)).
  { unfold History.save_effect. rewrite Hm, Hd, Hl, He, Hs, (well_typed_truthy v Hv).
    cbn [negb andb String.eqb]. unfold History.saveToHistory. rewrite Hu, Hb. dsimpl.
    split; [reflexivity|]. split; [congruence|].
    eexists. split; [reflexivity | split; reflexivity]. }
  destruct H0 as [H0 [L0 [it [Eh Hit]]]].
  pose proof (keeps_compose _ _ error_effect_keeps load_effect_keeps _ H0 L0) as K1.
  cbv beta in K1. destruct K1 as [H1 [L1 E1]].
  unfold History.commit. rewrite Hok. cbn [negb].
  destruct (negb (History.render_ok gt _)).
  { destruct (set_crashed_keeps _ H1 L1) as [H2 [L2 E2]].
    split; [exact H2 | split; [exact L2|]]. exists it. split; [congruence | exact Hit]. }
  destruct (save_effect_keeps _ H1 L1) as [H2 [L2 E2]].
  destruct (negb (History.render_ok gt _)).
  - destruct (set_crashed_keeps _ H2 L2) as [H3 [L3 E3]].
    split; [exact H3 | split; [exact L3|]]. exists it. split; [congruence | exact Hit].
  - split; [exact H2 | split; [exact L2|]]. exists it. split; [congruence | exact Hit].
Qed.

Lemma step_analyze (d0 : History.dash) (u : string) :
  History.user d0 = Some u -> History.mounted d0 = None ->
  History.activeTab d0 = History.TAnalyze -> History.crashed d0 = false ->
  History.resumeUploaded d0 = true ->
  50 <= String.length (History.resumeText d0) ->
  50 <= String.length (History.jobDescription d0) ->
  History.step gt d0 History.Analyze
  = History.commit gt (History.set_mounted
      (Some (History.mk_results false (History.resumeText d0) (History.jobDescription d0)
               (History.cache_lookup (History.cache d0) (History.resumeText d0)
                  (History.jobDescription d0))
               (match History.cache_lookup (History.cache d0) (History.resumeText d0)
                        (History.jobDescription d0) with None => true | Some _ => false end)
               None None History.IOverview))
      (History.set_flags false true d0)).
Proof.
  intros Hu Hm Ht Hc Hru Hr Hj.
  unfold History.step. rewrite Hc. cbn [History.apply]. unfold History.handleAnalyze.
  rewrite Hu, Hru, (eqb_empty_false _ Hr), (eqb_empty_false _ Hj), (ltb50_false _ Hr),
    (ltb50_false _ Hj). cbn [negb orb].
  unfold History.reconcile. dsimpl. rewrite Ht, Hu, Hm. dsimpl. reflexivity.
Qed.

Lemma analyze_then_settle (d0 : History.dash) (u : string) (v : Json.json) :
  History.user d0 = Some u -> History.loadedFor d0 = History.user d0 ->
  History.mounted d0 = None -> History.activeTab d0 = History.TAnalyze ->
  History.crashed d0 = false -> History.resumeUploaded d0 = true ->
  50 <= String.length (History.resumeText d0) ->
  50 <= String.length (History.jobDescription d0) ->
  History.dash_ok d0 = true -> History.well_typed v = true ->
  Forall (fun e => History.well_typed (snd e) = true) (History.cache d0) ->
  let d := History.run gt [History.Analyze; History.Settle (Resolved v)] d0 in
  History.hasBeenSaved d = true /\ History.loadedFor d = History.user d /\
  exists it, History.history d = it :: History.history d0 /\
             History.itemResume it = Some (History.resumeText d0) /\
             History.itemJob it = Some (History.jobDescription d0).
Proof.
  intros Hu L Hm Ht Hc Hru Hr Hj Hdash Hv Hcache d. subst d.
  unfold History.run; cbn [fold_left].
  rewrite (step_analyze d0 u Hu Hm Ht Hc Hru Hr Hj).
  destruct (History.cache_lookup (History.cache d0) (History.resumeText d0)
              (History.jobDescription d0)) as [w|] eqn:Hw.
  - pose proof (cache_lookup_typed _ _ _ _ Hcache Hw) as Hvw.
    match goal with |- context [History.commit gt ?D] =>
      destruct (commit_saves D (History.mk_results false (History.resumeText d0)
                  (History.jobDescription d0) (Some w) false None None History.IOverview) u w)
        as [H1 [L1 [it [Hh Hit]]]];
      [dsimpl; auto; try congruence
      | dsimpl; auto; try congruence | reflexivity | reflexivity | exact Hvw | reflexivity
      | reflexivity | reflexivity | reflexivity
      | rewrite (dash_ok_same D d0) by (dsimpl; congruence); exact Hdash | ]
    end.
    destruct (step_quiet_keeps (History.Settle (Resolved v)) eq_refl _ H1 L1) as [H2 [L2 E2]].
    split; [exact H2 | split; [exact L2|]]. exists it. dsimpl. split; [congruence | exact Hit].
  - match goal with |- context [History.commit gt ?D] => set (D0 := D) end.
    assert (R : History.render_ok gt D0 = true).
    { unfold History.render_ok. rewrite (dash_ok_same D0 d0) by reflexivity.
      rewrite Hdash. reflexivity. }
    assert (E : History.commit gt D0 = D0).
    { unfold History.commit. rewrite R. cbn [negb].
      assert (S : History.save_effect D0 = D0) by reflexivity.
      assert (Er : History.error_effect D0 = D0) by reflexivity.
      rewrite S, Er, (load_effect_id D0) by (subst D0; dsimpl; congruence).
      rewrite ?S, ?R. reflexivity. }
    rewrite E. subst D0.
    unfold History.step. dsimpl. rewrite Hc. cbn [History.apply].
    unfold History.settle. dsimpl. unfold History.reconcile. dsimpl.
    rewrite Ht, Hu, !String.eqb_refl. dsimpl.
    match goal with |- context [History.commit gt ?D] =>
      destruct (commit_saves D (History.mk_results false (History.resumeText d0)
                  (History.jobDescription d0) (Some v) false None None History.IOverview) u v)
        as [H1 [L1 [it [Hh Hit]]]];
      [dsimpl; auto; try congruence
      | dsimpl; auto; try congruence | reflexivity | reflexivity | exact Hv | reflexivity
      | reflexivity | reflexivity | reflexivity
      | rewrite (dash_ok_same D d0) by (dsimpl; congruence); exact Hdash | ]
    end.
    split; [exact H1 | split; [exact L1|]]. exists it. split; [exact Hh | exact Hit].
Qed.

(** C4: a signed-in user whose history has been loaded and whose Dashboard
    renders, with an uploaded resume and a job description of at least 50
    units each, presses Analyze, and the analysis resolves to a value of
    the declared [ComprehensiveAnalysis] shape (as do the cached analyses);
    then any number of events that start no new analysis follow
    (re-renders, tab switches, later settlements, further calls of
    [saveToHistory]).  The history list ends with exactly one new record,
    built from the analysed texts. *)
Theorem C4_single_record_per_analysis (d0 : History.dash) (u : string) (v : Json.json)
        (evs : list History.event) :
  History.user d0 = Some u -> History.loadedFor d0 = History.user d0 ->
  History.mounted d0 = None -> History.activeTab d0 = History.TAnalyze ->
  History.crashed d0 = false -> History.resumeUploaded d0 = true ->
  50 <= String.length (History.resumeText d0) ->
  50 <= String.length (History.jobDescription d0) ->
  History.dash_ok d0 = true -> History.well_typed v = true ->
  Forall (fun e => History.well_typed (snd e) = true) (History.cache d0) ->
  Forall (fun ev => History.quiet ev = true) evs ->
  exists it, History.history
               (History.run gt (History.Analyze :: History.Settle (Resolved v) :: evs) d0)
             = it :: History.history d0 /\
             History.itemResume it = Some (History.resumeText d0) /\
             History.itemJob it = Some (History.jobDescription d0).
Proof.
  intros Hu L Hm Ht Hc Hru Hr Hj Hdash Hv Hcache Hq.
  destruct (analyze_then_settle d0 u v Hu L Hm Ht Hc Hru Hr Hj Hdash Hv Hcache)
    as [H1 [L1 [it [Hh Hit]]]].
  destruct (run_quiet_keeps evs Hq _ H1 L1) as [_ [_ H2]].
  exists it. split; [|exact Hit].
  change (History.run gt (History.Analyze :: History.Settle (Resolved v) :: evs) d0)
    with (History.run gt evs (History.run gt [History.Analyze; History.Settle (Resolved v)] d0)).
  congruence.
Qed.

(** C2 fails: after sign-in the history holds one stored entry and
    [hasBeenSaved] is false; viewing that entry, opening the Analyze tab and
    letting the full analysis of the entry's stored texts settle appends a
    second record, a copy of the viewed one's inputs. *)
Theorem C2_view_history_appends_record :
  let d := History.run gt [History.ViewHistory Fixtures.stored_item;
                           History.SetTab History.TAnalyze;
                           History.Settle (Gemini.analyzeResumeJobMatch Json.parse (fun _ => false)
                                             Fixtures.resume Fixtures.job Gemini.NoApiKey)]
                       Fixtures.after_sign_in in
  List.length (History.history Fixtures.after_sign_in) = 1 /\
  List.length (History.history d) = 2 /\
  exists it, History.history d = [it; Fixtures.stored_item] /\
             History.itemResume it = History.itemResume Fixtures.stored_item /\
             History.itemJob it = History.itemJob Fixtures.stored_item.
Proof.
  vm_compute. split; [reflexivity | split; [reflexivity|]].
  eexists. split; [reflexivity | split; reflexivity].
Qed.

End Runs.

(** C4 fails for a resolved analysis of another shape: the model replies
    [{"skillMatch":{"matched":5}}], which [analyzeResumeJobMatch] resolves
    to unchanged.  The render of [AnalysisResults] then throws
    ([matchedSkills.slice] on the number 5 in [createSkillGapData], line 322) before
    any effect runs, so no record is saved. *)
Theorem C4_mistyped_analysis_not_saved :
  let q := Fixtures.quote in
  let reply := ("{" ++ q ++ "skillMatch" ++ q ++ ":{" ++ q ++ "matched" ++ q ++ ":5}}")%string in
  let p := Gemini.analyzeResumeJobMatch Json.parse (fun _ => false) Fixtures.resume Fixtures.job
             (Fixtures.text_reply reply) in
  let d := History.run (fun _ _ => false) [History.Analyze; History.Settle p] Fixtures.ready in
  p = Resolved (Json.JObj [("skillMatch", Json.JObj [("matched", Json.JNum "5")])]) /\
  History.well_typed (Json.JObj [("skillMatch", Json.JObj [("matched", Json.JNum "5")])]) = false /\
  History.history d = [] /\ History.crashed d = true.
Proof.
  vm_compute. repeat split; reflexivity.
Qed.

Lemma C4_witness :
  exists it, History.history
               (History.run (fun _ _ => false)
                  (History.Analyze :: History.Settle (Resolved Gemini.analysis_fallback)
                   :: [History.Rerender; History.SetTab History.THistory;
                       History.SetTab History.TAnalyze; History.CallSave None])
                  Fixtures.ready)
             = it :: History.history Fixtures.ready /\
             History.itemResume it = Some (History.resumeText Fixtures.ready) /\
             History.itemJob it = Some (History.jobDescription Fixtures.ready).
Proof.
  apply (C4_single_record_per_analysis (fun _ _ => false) Fixtures.ready "user@example.com"
           Gemini.analysis_fallback); try reflexivity.
  - vm_compute. lia.
  - vm_compute. lia.
  - constructor.
  - repeat constructor.
Defined.

Lemma X_history_prepend_only_witness :
  exists pre, List.length pre <= 2 /\
    History.history (History.run (fun _ _ => false)
                       [History.Analyze; History.Settle (Resolved Gemini.analysis_fallback)]
                       Fixtures.ready)
    = (pre ++ History.history Fixtures.ready)%list.
Proof.
  apply (X_history_prepend_only (fun _ _ => false)
           [History.Analyze; History.Settle (Resolved Gemini.analysis_fallback)] Fixtures.ready);
    [repeat constructor | reflexivity].
Defined.

Lemma X_storage_mirrors_history_witness :
  let evs := [History.ViewHistory Fixtures.stored_item; History.SetTab History.TAnalyze;
              History.Settle (Resolved Gemini.analysis_fallback)] in
  History.store_get (History.store Fixtures.after_sign_in) "user@example.com"
  = Some (History.history Fixtures.after_sign_in) /\
  History.store_get (History.store (History.run (fun _ _ => false) evs Fixtures.after_sign_in))
    "user@example.com"
  = Some (History.history (History.run (fun _ _ => false) evs Fixtures.after_sign_in)).
Proof.
  intros evs. split; [reflexivity|].
  apply (X_storage_mirrors_history (fun _ _ => false)); [reflexivity | reflexivity | reflexivity
                                                        | repeat constructor].
Defined.

Lemma X_signed_out_history_unchanged_witness :
  let d := History.mk_dash None [] [] None false false Fixtures.resume Fixtures.job true None
             History.TAnalyze None [] 1700000100000%N "11/20/2023" false None None in
  History.user d = None /\
  History.history (History.run (fun _ _ => false)
                     [History.Analyze; History.Settle (Resolved Gemini.analysis_fallback);
                      History.SignOut; History.CallSave (Some (Json.JNum "65"))] d) = [].
Proof.
  intros d. assert (H : History.user d = None) by reflexivity.
  split; [exact H|].
  apply (X_signed_out_history_unchanged (fun _ _ => false) _ _ H). repeat constructor.
Defined.


Lemma split_on_head (sep : ascii) (s : string) :
  match Js.split_on sep s with
  | w :: _ => prefix w s = true /\ Units.all_units (fun c => negb (Ascii.eqb c sep)) w = true
  | [] => False
  end.
Proof.
  induction s as [|c r IH]; cbn; [auto|].
  destruct (Ascii.eqb c sep) eqn:Ec; [auto|].
  destruct (Js.split_on sep r) as [|w ws]; [contradiction|].
  destruct IH as [P A]. cbn.
  destruct (ascii_dec c c); [|congruence]. rewrite Ec, P, A. auto.
Qed.

(** Dashboard [saveToHistory]: the job title stored with a record is never
    empty and holds no line feed.  With [first] the first line of the job
    description (the text before its first line feed, a prefix of it), the
    title is "Untitled Position" when [first] is empty and [first]
    otherwise. *)
Theorem X_job_title_first_line (jd : string) :
  History.job_title jd <> EmptyString /\
  Units.all_units (fun c => negb (Ascii.eqb c (ascii_of_nat 10))) (History.job_title jd) = true /\
  exists first rest,
    Js.split_on (ascii_of_nat 10) jd = first :: rest /\
    prefix first jd = true /\
    Units.all_units (fun c => negb (Ascii.eqb c (ascii_of_nat 10))) first = true /\
    History.job_title jd = (if String.eqb first EmptyString then "Untitled Position" else first).
Proof.
  unfold History.job_title. pose proof (split_on_head (ascii_of_nat 10) jd) as H.
  destruct (Js.split_on (ascii_of_nat 10) jd) as [|w ws]; [contradiction|].
  destruct H as [P A].
  destruct w as [|c w'].
  - split; [discriminate | split; [vm_compute; reflexivity|]].
    exists EmptyString, ws. repeat split; assumption.
  - split; [discriminate | split; [exact A|]].
    exists (String c w'), ws. repeat split; assumption.
Qed.

Lemma ensure_minimum_length (n t : string) : 50 <= String.length (Upload.ensure_minimum n t).
Proof.
  unfold Upload.ensure_minimum. destruct (Nat.ltb_spec (String.length t) 50).
  - apply floor_text_length.
  - exact H.
Qed.

Lemma uploaded_length (f : Upload.file) (t : string) :
  Upload.handleFileChange (Some f) = Upload.Uploaded t -> 50 <= String.length t.
Proof.
  unfold Upload.handleFileChange.
  destruct (negb _); [discriminate|]. destruct (N.ltb _ _); [discriminate|].
  destruct (Upload.extracted_text f); [|discriminate].
  intros H. injection H as <-. apply ensure_minimum_length.
Qed.

(** Dashboard: a resume accepted by [ResumeUpload] and handed over with
    [onUpload(true, text)], together with a job description of at least 50
    units, always passes the checks of [handleAnalyze] for a signed-in user:
    the results open for exactly these texts, with the save flag reset. *)
Theorem X_upload_then_analyze (f : Upload.file) (t jd : string) (d : History.dash) (u : string) :
  Upload.handleFileChange (Some f) = Upload.Uploaded t ->
  History.user d = Some u -> 50 <= String.length jd ->
  let d' := History.handleAnalyze
              (Callbacks.handleJobDescriptionChange jd (Callbacks.handleResumeUpload true t d)) in
  History.showResults d' = true /\ History.hasBeenSaved d' = false /\
  History.resumeText d' = t /\ History.jobDescription d' = jd /\
  History.resumeUploaded d' = true.
Proof.
  intros Hf Hu Hj d'. pose proof (uploaded_length f t Hf) as Ht.
  subst d'. unfold Callbacks.handleResumeUpload, Callbacks.handleJobDescriptionChange.
  rewrite (eqb_empty_false _ Ht). cbn [negb].
  unfold History.handleAnalyze. cbn [History.user History.resumeUploaded History.resumeText
    History.jobDescription History.mk_dash]. rewrite Hu.
  rewrite (eqb_empty_false _ Ht), (eqb_empty_false _ Hj), (ltb50_false _ Ht), (ltb50_false _ Hj).
  cbn. auto.
Qed.

Lemma X_upload_then_analyze_witness :
  Upload.handleFileChange (Some Fixtures.plain_file) = Upload.Uploaded Fixtures.resume /\
  History.showResults (History.handleAnalyze (Callbacks.handleJobDescriptionChange Fixtures.job
    (Callbacks.handleResumeUpload true Fixtures.resume Fixtures.after_sign_in))) = true.
Proof.
  assert (Hf : Upload.handleFileChange (Some Fixtures.plain_file)
               = Upload.Uploaded Fixtures.resume) by (vm_compute; reflexivity).
  split; [exact Hf|].
  apply (X_upload_then_analyze Fixtures.plain_file Fixtures.resume Fixtures.job
           Fixtures.after_sign_in "user@example.com" Hf eq_refl).
  vm_compute. lia.
Defined.

(** ResumeUpload: an accepted Word document (DOC or DOCX, at most 5 MB) is
    never read; the text handed on is the fixed placeholder built from its
    file name, whatever the file holds and even when it cannot be read. *)
Theorem X_word_documents_placeholder (f : Upload.file) :
  (Upload.type_ f = "application/msword" \/
   Upload.type_ f = "application/vnd.openxmlformats-officedocument.wordprocessingml.document") ->
  (Upload.size f <= Upload.max_size)%N ->
  Upload.handleFileChange (Some f) = Upload.Uploaded (Upload.word_text (Upload.name f)).
Proof.
  intros Ht Hs. unfold Upload.handleFileChange.
  replace (existsb (String.eqb (Upload.type_ f)) Upload.validTypes) with true
    by (destruct Ht as [E|E]; rewrite E; reflexivity).
  replace (N.ltb Upload.max_size (Upload.size f)) with false
    by (symmetry; apply N.ltb_ge; exact Hs).
  cbn [negb]. unfold Upload.extracted_text.
  replace (String.eqb (Upload.type_ f) "text/plain") with false
    by (destruct Ht as [E|E]; rewrite E; reflexivity).
  replace (String.eqb (Upload.type_ f) "application/pdf") with false
    by (destruct Ht as [E|E]; rewrite E; reflexivity).
  unfold Upload.ensure_minimum.
  replace (Nat.ltb (String.length (Upload.word_text (Upload.name f))) 50) with false.
  - reflexivity.
  - symmetry. apply Nat.ltb_ge. unfold Upload.word_text. rewrite length_append.
    cbn [String.length]. lia.
Qed.

Lemma X_word_documents_placeholder_witness :
  let f := {| Upload.name := "cv.docx";
              Upload.type_ := "application/vnd.openxmlformats-officedocument.wordprocessingml.document";
              Upload.size := 20000; Upload.decoded := None |} in
  Upload.handleFileChange (Some f) = Upload.Uploaded (Upload.word_text "cv.docx").
Proof.
  intros f. apply (X_word_documents_placeholder f); [right; reflexivity | vm_compute; discriminate].
Defined.

Lemma trim_start_length (s : string) : String.length (Js.trim_start s) <= String.length s.
Proof. induction s as [|c r IH]; cbn; [lia|]. destruct (Js.is_space c); cbn; lia. Qed.

Lemma trim_end_length (s : string) : String.length (Js.trim_end s) <= String.length s.
Proof.
  induction s as [|c r IH]; cbn; [lia|].
  destruct (Js.trim_end r); [destruct (Js.is_space c)|]; cbn in *; lia.
Qed.

Lemma trim_length (s : string) : String.length (Js.trim s) <= String.length s.
Proof.
  unfold Js.trim. pose proof (trim_end_length (Js.trim_start s)).
  pose proof (trim_start_length s). lia.
Qed.

(** [AnalysisResults]: whenever the resume or the job description has fewer
    than 50 units once trimmed, the analysis query rejects with an error
    whose message contains "too short" (from its own untrimmed check or from
    the service's trimmed one) and never resolves; when both have at least 50
    trimmed units, the query is exactly the service call. *)
Theorem X_query_short_inputs_rejected (JSON_parse : string -> option Json.json)
        (gt0 : Json.json -> bool) (rt jd : string) (r : Gemini.reply) :
  ((String.length (Js.trim rt) < 50 \/ String.length (Js.trim jd) < 50) ->
   exists m, Results.queryFn JSON_parse gt0 rt jd r = Rejected m /\
             Js.includes m "too short" = true) /\
  (50 <= String.length (Js.trim rt) -> 50 <= String.length (Js.trim jd) ->
   Results.queryFn JSON_parse gt0 rt jd r = Gemini.analyzeResumeJobMatch JSON_parse gt0 rt jd r).
Proof.
  split.
  - intros Hshort. unfold Results.queryFn.
    destruct (String.eqb rt EmptyString || Nat.ltb (String.length rt) 50).
    { eexists. split; [reflexivity | vm_compute; reflexivity]. }
    destruct (String.eqb jd EmptyString || Nat.ltb (String.length jd) 50).
    { eexists. split; [reflexivity | vm_compute; reflexivity]. }
    unfold Gemini.analyzeResumeJobMatch, Gemini.analysis_body.
    destruct (String.eqb rt EmptyString || Nat.ltb (String.length (Js.trim rt)) 50) eqn:E1.
    { eexists. split; [reflexivity | vm_compute; reflexivity]. }
    destruct (String.eqb jd EmptyString || Nat.ltb (String.length (Js.trim jd)) 50) eqn:E2.
    { eexists. split; [reflexivity | vm_compute; reflexivity]. }
    apply orb_false_iff in E1, E2. destruct E1 as [_ E1]. destruct E2 as [_ E2].
    apply Nat.ltb_ge in E1, E2. lia.
  - intros Hr Hj. pose proof (trim_length rt). pose proof (trim_length jd).
    unfold Results.queryFn.
    rewrite (eqb_empty_false rt), (eqb_empty_false jd), (ltb50_false rt), (ltb50_false jd)
      by lia.
    reflexivity.
Qed.

Lemma X_query_short_inputs_rejected_witness :
  (exists m, Results.queryFn Json.parse (fun _ => false) (Js.repeat_unit 60 " ") Fixtures.job
     Gemini.NoApiKey = Rejected m /\ Js.includes m "too short" = true) /\
  Results.queryFn Json.parse (fun _ => false) Fixtures.resume Fixtures.job Gemini.NoApiKey
  = Gemini.analyzeResumeJobMatch Json.parse (fun _ => false) Fixtures.resume Fixtures.job
      Gemini.NoApiKey.
Proof.
  destruct (X_query_short_inputs_rejected Json.parse (fun _ => false) (Js.repeat_unit 60 " ")
              Fixtures.job Gemini.NoApiKey) as [H1 _].
  destruct (X_query_short_inputs_rejected Json.parse (fun _ => false) Fixtures.resume
              Fixtures.job Gemini.NoApiKey) as [_ H2].
  split.
  - apply H1. left. vm_compute. lia.
  - apply H2; vm_compute; lia.
Defined.

Lemma substring_length_le (n m : nat) (s : string) : String.length (substring n m s) <= m.
Proof.
  revert n m. induction s as [|c r IH]; intros n m.
  - destruct n, m; cbn; lia.
  - destruct n as [|n].
    + destruct m as [|m]; cbn; [lia|]. specialize (IH 0 m). lia.
    + cbn. apply IH.
Qed.

Lemma window_text_length (s : string) : String.length (JobPage.window_text s) <= 5003.
Proof.
  assert (E1 : 5003 = 5000 + 3) by reflexivity.
  assert (E2 : 4000 <= 5003) by (apply Nat.leb_le; reflexivity).
  assert (T : String.length (if Nat.ltb 5000 (String.length s)
                             then substring 0 5000 s ++ "..." else s) <= 5003).
  { destruct (Nat.ltb_spec 5000 (String.length s)).
    - rewrite length_append. pose proof (substring_length_le 0 5000 s). cbn [String.length].
      lia.
    - lia. }
  unfold JobPage.window_text.
  destruct (JobPage.keyword_index s) as [idx|]; [|exact T].
  destruct (Nat.eqb idx 0); [exact T|].
  pose proof (substring_length_le idx 4000 s). lia.
Qed.

(** JobDescriptionInput [handleExtractFromUrl]: the job text and the
    Dashboard's job description change only after a 2xx response whose text
    could be read, and then both become the extracted text, which has at most
    5003 units (a 4000-unit window or 5000 units and "...") and clears the
    error; every other outcome leaves both texts as they were. *)
Theorem X_url_extraction_outcome (fm : UrlExtract.form) (res : UrlExtract.fetch_result) :
  let fm' := UrlExtract.handleExtractFromUrl fm res in
  (UrlExtract.jobText fm' = UrlExtract.jobText fm /\
   UrlExtract.jobDescription fm' = UrlExtract.jobDescription fm) \/
  (exists status textContent,
     res = UrlExtract.Response status (inr textContent) /\
     UrlExtract.response_ok status = true /\
     UrlExtract.jobText fm' = JobPage.stored_job_text textContent /\
     UrlExtract.jobDescription fm' = UrlExtract.jobText fm' /\
     UrlExtract.extractionError fm' = None /\
     String.length (UrlExtract.jobText fm') <= 5003).
Proof.
  cbn zeta. unfold UrlExtract.handleExtractFromUrl.
  destruct (String.eqb (UrlExtract.jobUrl fm) EmptyString); [left; auto|].
  destruct res as [m|status [m|tc]]; [left; auto| |].
  - destruct (negb (UrlExtract.response_ok status)); left; auto.
  - destruct (UrlExtract.response_ok status) eqn:Ok; cbn [negb]; [|left; auto].
    right. exists status, tc. cbn.
    repeat split; auto. apply window_text_length.
Qed.

(** A failed request keeps the texts and shows the message for its status. *)
Lemma X_url_extraction_outcome_witness :
  let fm := {| UrlExtract.jobUrl := "https://example.com/jobs/1"; UrlExtract.jobText := "old";
               UrlExtract.extractionError := None; UrlExtract.jobDescription := "old" |} in
  UrlExtract.handleExtractFromUrl fm (UrlExtract.Response 403 (inr "Forbidden"))
  = UrlExtract.set_error fm
      "Access denied: The website is blocking automated access. Please use the 'Paste Text' option instead." /\
  String.length (UrlExtract.jobText (UrlExtract.handleExtractFromUrl fm
     (UrlExtract.Response 200 (inr Fixtures.page_text)))) <= 5003.
Proof.
  intros fm. split; [reflexivity|].
  destruct (X_url_extraction_outcome fm (UrlExtract.Response 200 (inr Fixtures.page_text)))
    as [[E _] | [st [tc [_ [_ [_ [_ [_ L]]]]]]]].
  - rewrite E. cbn. lia.
  - exact L.
Defined.

(** supabase.ts [callGeminiAPI]: the call yields a value only for a 2xx
    response whose decoded body has no truthy [error] field; the value is
    the truthy [candidates[0].content.parts[0].text] of that body. *)
Theorem X_gemini_success_shape (r : Gemini.reply) (t : Json.json) :
  Gemini.callGeminiAPI r = Returns t ->
  exists data, r = Gemini.HttpOk (inr data) /\
    JsValue.truthy (JsValue.get data "error") = false /\
    JsValue.get_opt (JsValue.get_opt (JsValue.get_opt (JsValue.get_opt
      (JsValue.get_opt (JsValue.get data "candidates") "0") "content") "parts") "0") "text"
    = Some t /\
    JsValue.truthy (Some t) = true.
Proof.
  destruct r as [|m|st stt [m|b]|[m|data]]; cbn; try discriminate.
  unfold Gemini.envelope. destruct data as [| | | | |fs] eqn:Ed; [discriminate| | | | |];
  (destruct (JsValue.truthy (JsValue.get _ "error")) eqn:Ee; [discriminate|];
   match goal with |- context [if ?b then _ else _] => destruct b eqn:Eb end; [discriminate|];
   match goal with |- context [match ?x with Some _ => _ | None => _ end] => destruct x eqn:Et end;
   [|discriminate];
   intros H; injection H; intros; subst; eexists; split; [reflexivity|]; split; [exact Ee|];
   split; [exact Et|];
   apply orb_false_iff in Eb; destruct Eb as [_ Eb];
   apply negb_false_iff in Eb; change (JsValue.truthy (Some t) = true); first [exact Eb | rewrite <- Et; exact Eb]).
Qed.

Lemma X_gemini_success_shape_witness :
  exists data, Fixtures.text_reply "ok" = Gemini.HttpOk (inr data) /\
    JsValue.truthy (JsValue.get data "error") = false /\
    JsValue.get_opt (JsValue.get_opt (JsValue.get_opt (JsValue.get_opt
      (JsValue.get_opt (JsValue.get data "candidates") "0") "content") "parts") "0") "text"
    = Some (Json.JStr "ok") /\
    JsValue.truthy (Some (Json.JStr "ok")) = true.
Proof. apply X_gemini_success_shape. reflexivity. Defined.

Lemma first_index_spec (c : ascii) (s : string) (i : nat) :
  Gemini.first_index c s = Some i ->
  String.get i s = Some c /\ forall k, k < i -> String.get k s <> Some c.
Proof.
  revert i. induction s as [|d r IH]; intros i; cbn; [discriminate|].
  destruct (Ascii.eqb_spec c d) as [<-|Hne].
  - intros H. injection H as <-. split; [reflexivity | intros k Hk; lia].
  - destruct (Gemini.first_index c r) as [n|] eqn:E; [|discriminate].
    intros H. injection H as <-. destruct (IH n eq_refl) as [G L].
    split; [exact G|]. intros [|k] Hk; cbn.
    + intros Hc. injection Hc. congruence.
    + apply L. lia.
Qed.

Lemma last_index_spec (c : ascii) (s : string) (j : nat) :
  Gemini.last_index c s = Some j ->
  String.get j s = Some c /\ forall k, j < k -> String.get k s <> Some c.
Proof.
  revert j. induction s as [|d r IH]; intros j; cbn; [discriminate|].
  destruct (Gemini.last_index c r) as [n|] eqn:E.
  - intros H. injection H as <-. destruct (IH n eq_refl) as [G L].
    split; [exact G|]. intros [|k] Hk; [lia|]. cbn. apply L. lia.
  - destruct (Ascii.eqb_spec c d) as [<-|Hne]; [|discriminate].
    intros H. injection H as <-. split; [reflexivity|].
    intros [|k] Hk; [lia|]. cbn.
    clear IH. revert k Hk. induction r as [|e r' IHr]; intros k Hk; cbn; [discriminate|].
    cbn in E. destruct (Gemini.last_index c r') eqn:E'; [discriminate|].
    destruct (Ascii.eqb_spec c e) as [<-|Hne']; [discriminate|].
    destruct k as [|k]; [intros Hc; injection Hc; congruence|].
    apply IHr; [reflexivity | lia].
Qed.

Lemma get_some_lt (k : nat) (s : string) (c : ascii) :
  String.get k s = Some c -> k < String.length s.
Proof.
  revert k. induction s as [|d r IH]; intros [|k]; cbn; try discriminate; [lia|].
  intros H. specialize (IH k H). lia.
Qed.

Lemma substring_length_eq (i n : nat) (s : string) :
  i + n <= String.length s -> String.length (substring i n s) = n.
Proof.
  revert i n. induction s as [|c r IH]; intros i n H.
  - cbn in H. assert (i = 0) by lia; assert (n = 0) by lia; subst. reflexivity.
  - destruct i as [|i].
    + destruct n as [|n]; [reflexivity|]. cbn in *. rewrite (IH 0 n); lia.
    + cbn in *. apply IH. lia.
Qed.

Lemma substring_get (i n k : nat) (s : string) :
  k < n -> String.get k (substring i n s) = String.get (i + k) s.
Proof.
  revert i n k. induction s as [|c r IH]; intros i n k Hk.
  - destruct i, n; reflexivity.
  - destruct i as [|i].
    + destruct n as [|n]; [lia|]. destruct k as [|k]; [reflexivity|].
      cbn. rewrite (IH 0 n k); [reflexivity | lia].
    + cbn. apply IH. exact Hk.
Qed.

(** supabase.ts, the [match(/\[[\s\S]*\]/)] and [match(/\{[\s\S]*\}/)]
    steps: the text handed to [JSON.parse] is the whole reply text, or the
    part of it from the first opening delimiter to the last closing one
    after it: it starts with the opening delimiter, ends with the closing
    one, and no opening delimiter comes before it nor a closing one after
    it. *)
Theorem X_json_text_delimited (op cl : ascii) (s : string) :
  let t := Gemini.extract_json_text op cl s in
  t = s \/
  exists i, t = substring i (String.length t) s /\
            2 <= String.length t /\
            String.get 0 t = Some op /\
            String.get (String.length t - 1) t = Some cl /\
            (forall k, k < i -> String.get k s <> Some op) /\
            (forall k, i + String.length t <= k -> String.get k s <> Some cl).
Proof.
  cbn zeta. unfold Gemini.extract_json_text.
  destruct (Gemini.first_index op s) as [i|] eqn:Ei; [|left; reflexivity].
  destruct (Gemini.last_index cl s) as [j|] eqn:Ej; [|left; reflexivity].
  destruct (Nat.ltb_spec i j) as [Hij|]; [|left; reflexivity].
  right. destruct (first_index_spec _ _ _ Ei) as [Gi Li].
  destruct (last_index_spec _ _ _ Ej) as [Gj Lj].
  pose proof (get_some_lt _ _ _ Gj) as Hj.
  rewrite (substring_length_eq i (j - i + 1) s) by lia.
  exists i. split; [reflexivity|]. split; [lia|]. split.
  - rewrite substring_get by lia. rewrite Nat.add_0_r. exact Gi.
  - split.
    + rewrite substring_get by lia. replace (i + (j - i + 1 - 1)) with j by lia. exact Gj.
    + split; [exact Li|]. intros k Hk. apply Lj. lia.
Qed.

Lemma obj_lookup_put_same (fs : list (string * Json.json)) (k : string) (v : Json.json) :
  Json.obj_lookup (Json.obj_put fs k v) k = Some v.
Proof.
  induction fs as [|[k' v'] rest IH]; cbn; [rewrite String.eqb_refl; reflexivity|].
  destruct (String.eqb k k') eqn:E; cbn; rewrite E; [reflexivity | exact IH].
Qed.

Lemma obj_lookup_put_other (fs : list (string * Json.json)) (k k2 : string) (v : Json.json) :
  k2 <> k -> Json.obj_lookup (Json.obj_put fs k v) k2 = Json.obj_lookup fs k2.
Proof.
  intros Hne. induction fs as [|[k' v'] rest IH]; cbn.
  - apply String.eqb_neq in Hne. rewrite Hne. reflexivity.
  - destruct (String.eqb_spec k k') as [<-|Hne']; cbn.
    + apply String.eqb_neq in Hne. rewrite Hne. reflexivity.
    + rewrite IH. reflexivity.
Qed.

Lemma fix_gap_item_skill (item item' : Json.json) :
  Gemini.fix_gap_item item = Returns item' ->
  JsValue.get item' "skill"
  = Some (if JsValue.truthy (JsValue.get item "skill")
          then match JsValue.get item "skill" with Some s => s | None => Json.JStr "Unknown Skill" end
          else Json.JStr "Unknown Skill").
Proof.
  intros H.
  assert (Hnn : item <> Json.JNull) by (intros ->; discriminate H).
  unfold Gemini.fix_gap_item in H.
  replace (match item with Json.JNull => _ | _ => _ end)
    with (Returns (Json.JObj (Json.obj_put (JsValue.spread item) "skill"
            (match JsValue.get item "skill" with
             | Some s => if JsValue.truthy (JsValue.get item "skill") then s else Json.JStr "Unknown Skill"
             | None => Json.JStr "Unknown Skill" end)))) in H
    by (destruct item; [contradiction | reflexivity ..]).
  injection H as <-. unfold JsValue.get at 1. rewrite obj_lookup_put_same.
  destruct (JsValue.get item "skill"); reflexivity.
Qed.

Lemma skill_value_truthy (o : option Json.json) :
  JsValue.truthy (Some (if JsValue.truthy o
                        then match o with Some s => s | None => Json.JStr "Unknown Skill" end
                        else Json.JStr "Unknown Skill")) = true.
Proof.
  destruct (JsValue.truthy o) eqn:E; [|reflexivity].
  destruct o; [exact E | discriminate].
Qed.

Lemma map_throws_fix (items items' : list Json.json) :
  Gemini.map_throws Gemini.fix_gap_item items = Returns items' ->
  Forall2 (fun it it' => Gemini.fix_gap_item it = Returns it') items items'.
Proof.
  revert items'. induction items as [|x xs IH]; intros items'; cbn.
  - intros H. injection H as <-. constructor.
  - destruct (Gemini.fix_gap_item x) as [y|m] eqn:Ex; cbn; [|discriminate].
    destruct (Gemini.map_throws Gemini.fix_gap_item xs) as [ys|m] eqn:Exs; cbn; [|discriminate].
    intros H. injection H as <-. constructor; [exact Ex | apply IH; reflexivity].
Qed.

(** supabase.ts, lines 395-400: when the decoded analysis has a non-empty
    [skillGapData] array and the clean-up succeeds, the array keeps its
    length and every entry gets a truthy [skill]: the model's one when it
    was truthy, "Unknown Skill" otherwise; every other top-level field of
    the analysis is left as decoded. *)
Theorem X_skill_gap_names (gt0 : Json.json -> bool) (fs : list (string * Json.json))
        (items : list Json.json) (a : Json.json) :
  Json.obj_lookup fs "skillGapData" = Some (Json.JArr items) -> items <> [] ->
  Gemini.fix_skill_gaps gt0 (Json.JObj fs) = Returns a ->
  exists items',
    a = Json.JObj (Json.obj_put fs "skillGapData" (Json.JArr items')) /\
    Json.obj_lookup (Json.obj_put fs "skillGapData" (Json.JArr items')) "skillGapData"
      = Some (Json.JArr items') /\
    (forall k, k <> "skillGapData" ->
       Json.obj_lookup (Json.obj_put fs "skillGapData" (Json.JArr items')) k
       = Json.obj_lookup fs k) /\
    Forall2 (fun it it' =>
               JsValue.get it' "skill"
               = Some (if JsValue.truthy (JsValue.get it "skill")
                       then match JsValue.get it "skill" with
                            | Some s => s | None => Json.JStr "Unknown Skill" end
                       else Json.JStr "Unknown Skill") /\
               JsValue.truthy (JsValue.get it' "skill") = true) items items'.
Proof.
  intros Hl Hne. unfold Gemini.fix_skill_gaps. rewrite Hl.
  replace (JsValue.truthy (Some (Json.JArr items)) && Gemini.length_positive gt0 (Json.JArr items))
    with true by (destruct items; [contradiction | reflexivity]).
  destruct (Gemini.map_throws Gemini.fix_gap_item items) as [items'|m] eqn:E; cbn; [|discriminate].
  intros H. injection H as <-. exists items'.
  split; [reflexivity|]. split; [apply obj_lookup_put_same|].
  split; [intros k Hk; apply obj_lookup_put_other, Hk|].
  apply map_throws_fix in E. clear Hl Hne.
  induction E as [|x y xs ys Hxy _ IH]; [constructor|]. constructor; [|exact IH].
  rewrite (fix_gap_item_skill x y Hxy). split; [reflexivity | apply skill_value_truthy].
Qed.

Lemma X_skill_gap_names_witness :
  let fs := [("skillGapData", Json.JArr [Json.JObj [("skill", Json.JStr "");
                                                    ("current", Json.JNum "40")]])] in
  exists items',
    Gemini.fix_skill_gaps (fun _ => false) (Json.JObj fs)
      = Returns (Json.JObj [("skillGapData", Json.JArr items')]) /\
    Forall2 (fun it it' =>
               JsValue.get it' "skill"
               = Some (if JsValue.truthy (JsValue.get it "skill")
                       then match JsValue.get it "skill" with
                            | Some s => s | None => Json.JStr "Unknown Skill" end
                       else Json.JStr "Unknown Skill") /\
               JsValue.truthy (JsValue.get it' "skill") = true)
      [Json.JObj [("skill", Json.JStr ""); ("current", Json.JNum "40")]] items'.
Proof.
  intros fs.
  destruct (X_skill_gap_names (fun _ => false) fs
              [Json.JObj [("skill", Json.JStr ""); ("current", Json.JNum "40")]]
              (Json.JObj [("skillGapData", Json.JArr
                 [Json.JObj [("skill", Json.JStr "Unknown Skill"); ("current", Json.JNum "40")]])])
              eq_refl ltac:(discriminate) eq_refl) as [items' [E [_ [_ F]]]].
  exists items'. split; [|exact F].
  transitivity (Returns (Json.JObj [("skillGapData", Json.JArr
                 [Json.JObj [("skill", Json.JStr "Unknown Skill"); ("current", Json.JNum "40")]])]));
    [reflexivity|].
  rewrite E. reflexivity.
Defined.

Lemma map_throws_null (xs : list Json.json) :
  In Json.JNull xs -> exists m, Gemini.map_throws Gemini.fix_gap_item xs = Throws m.
Proof.
  induction xs as [|x xs IH]; cbn; [contradiction|].
  intros [->|Hin]; [eexists; reflexivity|].
  destruct (Gemini.fix_gap_item x); cbn; [|eexists; reflexivity].
  destruct (IH Hin) as [m E]. rewrite E. cbn. eexists; reflexivity.
Qed.

(** supabase.ts, lines 395-416: for inputs that pass validation, a decoded
    analysis whose [skillGapData] array contains a [null] entry makes the
    clean-up throw, and the whole model answer is replaced by the hardcoded
    fallback analysis. *)
Theorem X_null_gap_item_discards_analysis (JSON_parse : string -> option Json.json)
        (gt0 : Json.json -> bool) (resumeText jobDescription : string) (r : Gemini.reply)
        (s : string) (fs : list (string * Json.json)) (items : list Json.json) :
  50 <= String.length (Js.trim resumeText) ->
  50 <= String.length (Js.trim jobDescription) ->
  Gemini.callGeminiAPI r = Returns (Json.JStr s) ->
  JSON_parse (Gemini.extract_json_text "{" "}" s) = Some (Json.JObj fs) ->
  Json.obj_lookup fs "skillGapData" = Some (Json.JArr items) ->
  In Json.JNull items ->
  Gemini.analyzeResumeJobMatch JSON_parse gt0 resumeText jobDescription r
  = Resolved Gemini.analysis_fallback.
Proof.
  intros Hr Hj Hc Hp Hl Hin. unfold Gemini.analyzeResumeJobMatch.
  rewrite (analysis_body_valid _ _ _ _ _ Hr Hj), Hc. cbn [bind].
  unfold Gemini.parse_analysis. rewrite Hp.
  unfold Gemini.fix_skill_gaps. rewrite Hl.
  replace (JsValue.truthy (Some (Json.JArr items)) && Gemini.length_positive gt0 (Json.JArr items))
    with true by (destruct items; [contradiction | reflexivity]).
  destruct (map_throws_null _ Hin) as [m E]. rewrite E. cbn [bind].
  rewrite parse_failure_not_too_short. reflexivity.
Qed.

Lemma X_null_gap_item_discards_analysis_witness :
  let s := "{" ++ Fixtures.quote ++ "skillGapData" ++ Fixtures.quote ++ ":[null]}" in
  Gemini.analyzeResumeJobMatch Json.parse (fun _ => false) Fixtures.resume Fixtures.job
    (Fixtures.text_reply s) = Resolved Gemini.analysis_fallback.
Proof.
  intros s.
  apply (X_null_gap_item_discards_analysis Json.parse (fun _ => false) Fixtures.resume Fixtures.job
           (Fixtures.text_reply s) s [("skillGapData", Json.JArr [Json.JNull])] [Json.JNull]);
    [vm_compute; lia | vm_compute; lia | vm_compute; reflexivity | vm_compute; reflexivity
    | reflexivity | left; reflexivity].
Defined.

Lemma all_units_map_printable (s : string) :
  Units.all_units Units.printable (Js.map_units Upload.printable_or_space s) = true.
Proof.
  induction s as [|c r IH]; cbn; [reflexivity|].
  rewrite IH, andb_true_r. unfold Upload.printable_or_space, Units.printable.
  destruct (Nat.leb 32 (nat_of_ascii c) && Nat.leb (nat_of_ascii c) 126) eqn:E; [exact E | reflexivity].
Qed.

Lemma all_units_split (p : ascii -> bool) (sep : ascii) (s : string) :
  Units.all_units p s = true -> Forall (fun w => Units.all_units p w = true) (Js.split_on sep s).
Proof.
  induction s as [|c r IH]; cbn; [repeat constructor|].
  intros H. apply andb_prop in H as [Hc Hr]. specialize (IH Hr).
  destruct (Ascii.eqb c sep); [constructor; [reflexivity | exact IH]|].
  destruct (Js.split_on sep r) as [|w ws]; [constructor; [cbn; rewrite Hc; reflexivity | constructor]|].
  inversion IH as [|? ? Hw Hws]; subst. constructor; [cbn; rewrite Hc, Hw; reflexivity | exact Hws].
Qed.

Lemma all_units_append (p : ascii -> bool) (a b : string) :
  Units.all_units p a = true -> Units.all_units p b = true -> Units.all_units p (a ++ b) = true.
Proof.
  induction a as [|c r IH]; cbn; [auto|].
  intros H Hb. apply andb_prop in H as [Hc Hr]. rewrite Hc, (IH Hr Hb). reflexivity.
Qed.

Lemma all_units_concat (p : ascii -> bool) (sep : string) (ws : list string) :
  Units.all_units p sep = true -> Forall (fun w => Units.all_units p w = true) ws ->
  Units.all_units p (String.concat sep ws) = true.
Proof.
  intros Hs H. induction H as [|w ws Hw Hws IH]; [reflexivity|].
  destruct ws as [|w' ws']; cbn; [exact Hw|].
  apply all_units_append; [exact Hw|]. apply all_units_append; [exact Hs | exact IH].
Qed.

Lemma all_units_collapse (p : ascii -> bool) (b : bool) (s : string) :
  p " "%char = true -> Units.all_units p s = true -> Units.all_units p (Js.collapse_aux b s) = true.
Proof.
  intros Hsp. revert b. induction s as [|c r IH]; intros b; cbn; [reflexivity|].
  intros H. apply andb_prop in H as [Hc Hr].
  destruct (Js.is_space c), b; cbn; rewrite ?Hsp, ?Hc; apply IH; exact Hr.
Qed.

Lemma all_units_trim_start (p : ascii -> bool) (s : string) :
  Units.all_units p s = true -> Units.all_units p (Js.trim_start s) = true.
Proof.
  induction s as [|c r IH]; cbn; [auto|].
  intros H. destruct (Js.is_space c); [|exact H].
  apply andb_prop in H as [_ Hr]. exact (IH Hr).
Qed.

Lemma all_units_trim_end (p : ascii -> bool) (s : string) :
  Units.all_units p s = true -> Units.all_units p (Js.trim_end s) = true.
Proof.
  induction s as [|c r IH]; cbn; [auto|].
  intros H. apply andb_prop in H as [Hc Hr]. specialize (IH Hr).
  destruct (Js.trim_end r) as [|c' r'] eqn:E.
  - destruct (Js.is_space c); cbn; [reflexivity | rewrite Hc; reflexivity].
  - cbn. rewrite Hc. exact IH.
Qed.

(** [collapse_aux true s] never starts with a whitespace unit. *)
Lemma collapse_true_head (s : string) :
  match Js.collapse_aux true s with String c _ => Js.is_space c = false | EmptyString => True end.
Proof.
  induction s as [|c r IH]; cbn; [exact I|].
  destruct (Js.is_space c) eqn:E; [exact IH | exact E].
Qed.

Lemma single_spaced_collapse (b : bool) (s : string) :
  Units.single_spaced (Js.collapse_aux b s) = true.
Proof.
  revert b. induction s as [|c r IH]; intros b; cbn; [reflexivity|].
  destruct (Js.is_space c) eqn:E; [destruct b; [apply IH|]|].
  - pose proof (collapse_true_head r) as Hh. specialize (IH true).
    destruct (Js.collapse_aux true r) as [|c' r'] eqn:Ec; [reflexivity|].
    change (negb (Js.is_space " " && Js.is_space c') && Units.single_spaced (String c' r') = true).
    rewrite Hh, andb_false_r. exact IH.
  - specialize (IH false). destruct (Js.collapse_aux false r) as [|c' r'] eqn:Ec; [reflexivity|].
    change (negb (Js.is_space c && Js.is_space c') && Units.single_spaced (String c' r') = true).
    rewrite E. exact IH.
Qed.

Lemma single_spaced_tail (c : ascii) (r : string) :
  Units.single_spaced (String c r) = true -> Units.single_spaced r = true.
Proof.
  destruct r as [|c' r']; [reflexivity|]. cbn -[Units.single_spaced].
  intros H. apply andb_prop in H as [_ H]. exact H.
Qed.

Lemma single_spaced_trim_start (s : string) :
  Units.single_spaced s = true -> Units.single_spaced (Js.trim_start s) = true.
Proof.
  induction s as [|c r IH]; cbn -[Units.single_spaced]; [auto|].
  intros H. destruct (Js.is_space c); [exact (IH (single_spaced_tail c r H)) | exact H].
Qed.

(** A non-empty [trim_end r] starts with the first unit of [r]. *)
Lemma trim_end_head (r : string) (c' : ascii) (r' : string) :
  Js.trim_end r = String c' r' -> exists y, r = String c' y.
Proof.
  destruct r as [|c r]; cbn; [discriminate|].
  destruct (Js.trim_end r); [destruct (Js.is_space c); [discriminate|]|];
    intros H; injection H as -> _; eexists; reflexivity.
Qed.

Lemma single_spaced_trim_end (s : string) :
  Units.single_spaced s = true -> Units.single_spaced (Js.trim_end s) = true.
Proof.
  induction s as [|c r IH]; [auto|]. intros H.
  specialize (IH (single_spaced_tail c r H)).
  change (Units.single_spaced
            (match Js.trim_end r with
             | EmptyString => if Js.is_space c then EmptyString else String c EmptyString
             | _ => String c (Js.trim_end r) end) = true).
  destruct (Js.trim_end r) as [|c' r'] eqn:E; [destruct (Js.is_space c); reflexivity|].
  destruct (trim_end_head r c' r' E) as [y ->].
  change (negb (Js.is_space c && Js.is_space c') && Units.single_spaced (String c' r') = true).
  change (negb (Js.is_space c && Js.is_space c') && Units.single_spaced (String c' y) = true) in H.
  apply andb_prop in H as [H _]. rewrite H. exact IH.
Qed.

Lemma trim_start_first (s : string) (c : ascii) :
  Units.first_unit (Js.trim_start s) = Some c -> Js.is_space c = false.
Proof.
  induction s as [|c0 r IH]; cbn; [discriminate|].
  destruct (Js.is_space c0) eqn:E; [exact IH|]. intros H; injection H as <-. exact E.
Qed.

Lemma trim_end_first (s : string) (c : ascii) :
  Units.first_unit (Js.trim_end s) = Some c -> Units.first_unit s = Some c.
Proof.
  unfold Units.first_unit. destruct (Js.trim_end s) as [|c' r'] eqn:E; cbn; [discriminate|].
  destruct (trim_end_head s c' r' E) as [y ->]. exact (fun H => H).
Qed.

Lemma trim_end_last (s : string) (c : ascii) :
  Units.last_unit (Js.trim_end s) = Some c -> Js.is_space c = false.
Proof.
  unfold Units.last_unit. induction s as [|c0 r IH]; [discriminate|].
  change (String.get (String.length
            (match Js.trim_end r with
             | EmptyString => if Js.is_space c0 then EmptyString else String c0 EmptyString
             | _ => String c0 (Js.trim_end r) end) - 1)
            (match Js.trim_end r with
             | EmptyString => if Js.is_space c0 then EmptyString else String c0 EmptyString
             | _ => String c0 (Js.trim_end r) end) = Some c -> Js.is_space c = false).
  destruct (Js.trim_end r) as [|c' r'] eqn:E.
  - destruct (Js.is_space c0) eqn:Es; cbn; [discriminate|]. intros H; injection H as <-. exact Es.
  - intros H. apply IH. cbn [String.length] in *.
    replace (S (String.length r') - 1) with (String.length r') by lia.
    replace (S (S (String.length r')) - 1) with (S (String.length r')) in H by lia.
    exact H.
Qed.

(** ResumeUpload.tsx, lines 79-87: whatever the PDF content, the printable-filter heuristic
    yields only printable ASCII units (0x20-0x7E), never two whitespace units
    in a row, and no whitespace at either end. *)
Theorem X_printable_heuristic_clean (content : string) :
  let t := Upload.heuristic_printable content in
  Units.all_units Units.printable t = true /\
  Units.single_spaced t = true /\
  (forall c, Units.first_unit t = Some c -> Js.is_space c = false) /\
  (forall c, Units.last_unit t = Some c -> Js.is_space c = false).
Proof.
  cbn zeta. unfold Upload.heuristic_printable, Js.trim, Js.collapse_ws.
  split; [|split; [|split]].
  - apply all_units_trim_end, all_units_trim_start, all_units_collapse; [reflexivity|].
    apply all_units_concat; [reflexivity|].
    apply Forall_forall. intros w Hw. apply filter_In in Hw as [Hw _].
    revert w Hw. apply Forall_forall, all_units_split, all_units_map_printable.
  - apply single_spaced_trim_end, single_spaced_trim_start, single_spaced_collapse.
  - intros c H. apply trim_end_first in H. exact (trim_start_first _ _ H).
  - apply trim_end_last.
Qed.
